(** * neural2d helper scripts: a shallow embedding and its properties

    Two scripts are modelled:
    - [gen/gen2.py] (Python 2): prints [samples] rows, each a label
      [{ i }] followed by a 10x10 grid of [ 1 ]/[-1 ] markers;
    - [tests/images/mnist/makeTrainDataForNeural2d.py] (Python 3): reads the
      MNIST image and label files, saves one bitmap per record and writes
      one manifest line per record.

    Python statements become computations in a state-and-exception monad:
    the state holds the script's variables and the part of the outside
    world it touches, an uncaught exception ends the run and leaves the
    state as it was when it was raised. *)

From Stdlib Require Import ZArith List String Ascii DecimalString DecimalZ DecimalPos Lia.
From Stdlib Require Strings.Byte.
From stdpp Require Import base list strings.

Open Scope Z_scope.

(** ** Exceptions and the state-and-exception monad *)

(** The exceptions the two scripts can raise.  [SystemExit] carries the
    status given to [exit]. *)
Inductive exn : Type :=
  | SystemExit (status : Z)
  | ZeroDivisionError
  | TypeError
  | ValueError
  | IndexError.

Section Eff.
Context {S : Type}.

(** A computation maps the state before to the state after and either
    the exception raised or the value produced. *)
Definition eff (A : Type) : Type := S -> S * (exn + A).

Definition ret {A} (a : A) : eff A := fun s => (s, inr a).

Definition raise {A} (e : exn) : eff A := fun s => (s, inl e).

Definition bind {A B} (c : eff A) (k : A -> eff B) : eff B :=
  fun s =>
    match c s with
    | (s', inr a) => k a s'
    | (s', inl e) => (s', inl e)
    end.

Definition get : eff S := fun s => (s, inr s).

Definition modify (f : S -> S) : eff unit := fun s => (f s, inr tt).

(** [for x in xs: body x] *)
Fixpoint for_each {A} (xs : list A) (body : A -> eff unit) : eff unit :=
  match xs with
  | [] => ret tt
  | x :: xs' => bind (body x) (fun _ => for_each xs' body)
  end.
End Eff.

Arguments eff : clear implicits.

Declare Scope eff_scope.
Delimit Scope eff_scope with eff.
Notation "x <- c ;; k" := (bind c (fun x => k))
  (at level 100, c at next level, k at level 200, right associativity) : eff_scope.
Notation "c ;;; k" := (bind c (fun _ => k))
  (at level 100, k at level 200, right associativity) : eff_scope.
Open Scope eff_scope.

(** The exit status the operating system sees: 0 after a normal end, the
    given status after [exit], 1 after any other uncaught exception. *)
Definition exit_status {A} (r : exn + A) : Z :=
  match r with
  | inr _ => 0
  | inl (SystemExit c) => c
  | inl _ => 1
  end.

(** ** Text helpers *)

(** [str % d] for one integer: decimal digits, a leading minus sign for
    negative numbers. *)
Definition fmt_d (z : Z) : string := NilZero.string_of_int (Z.to_int z).

(** The newline character. *)
Definition nl : string := String "010"%char EmptyString.

(** [range(n)]: the integers from 0 up to [n - 1], none when [n <= 0]. *)
Definition range (n : Z) : list Z := seqZ 0 n.

(** Concatenation of a list of strings. *)
Definition cat (l : list string) : string := fold_right String.append EmptyString l.

Definition is_space (c : ascii) : bool :=
  match c with
  | " "%char | "009"%char | "010"%char | "011"%char | "012"%char | "013"%char => true
  | _ => false
  end.

Definition flush (cur : string) : list string :=
  match cur with
  | EmptyString => []
  | _ => [cur]
  end.

(** Whitespace-separated tokens of a line ([str.split()]); [cur] is the
    token being read. *)
Fixpoint tokens_from (cur : string) (s : string) : list string :=
  match s with
  | EmptyString => flush cur
  | String c s' =>
      if is_space c then flush cur ++ tokens_from EmptyString s'
      else tokens_from (cur +:+ String c EmptyString) s'
  end.

Definition tokens (s : string) : list string := tokens_from EmptyString s.

(** Number of occurrences of a token. *)
Definition count_tok (t : string) (ts : list string) : nat :=
  length (List.filter (fun u => String.eqb u t) ts).

(** A string without whitespace. *)
Fixpoint plain (s : string) : bool :=
  match s with
  | EmptyString => true
  | String c s' => negb (is_space c) && plain s'
  end.

(** ** gen/gen2.py *)

Module gen2.

(** The script's variable [out] and the lines printed so far. *)
Record vars : Type := { out : string; stdout : list string }.

Definition init : vars := {| out := EmptyString; stdout := [] |}.

Definition set_out (s : string) : eff vars unit :=
  modify (fun v => {| out := s; stdout := stdout v |}).

Definition add_out (s : string) : eff vars unit :=
  modify (fun v => {| out := out v +:+ s; stdout := stdout v |}).

(** [print out] *)
Definition print_out : eff vars unit :=
  modify (fun v => {| out := out v; stdout := stdout v ++ [out v] |}).

(** Python 2 [a / b] on integers: floor division, an exception when the
    divisor is zero. *)
Definition floordiv {S} (a b : Z) : eff S Z :=
  if b =? 0 then raise ZeroDivisionError else ret (a / b).

(** [j == k and k == i/(samples/10)]: the division is evaluated only
    when [j == k]. *)
Definition marked {S} (samples i j k : Z) : eff S bool :=
  if j =? k then
    d <- floordiv samples 10 ;;
    b <- floordiv i d ;;
    ret (k =? b)
  else ret false.

(** Lines 11 to 15: the body of [for i in range(samples)]. *)
Definition row (samples i : Z) : eff vars unit :=
  set_out ("{ " +:+ fmt_d i +:+ " } ") ;;;
  for_each (range 10) (fun j =>
    for_each (range 10) (fun k =>
      m <- marked samples i j k ;;
      add_out (if m : bool then " 1 " else "-1 "))) ;;;
  print_out.

(** Lines 10 to 15, for a given value of [samples]. *)
Definition generate (samples : Z) : eff vars unit :=
  for_each (range samples) (row samples).

(** The script: [samples] is 100 unless a first argument is given;
    [arg] is the integer [int(sys.argv[1])] when there is one. *)
Definition main (arg : option Z) : eff vars unit :=
  let samples := match arg with Some n => n | None => 100 end in
  generate samples.

(** *** Closed forms used in the statements *)

(** The marker of grid cell [(j, k)] of a row whose bucket is [b]. *)
Definition cell (b j k : Z) : bool := (j =? k) && (k =? b).

(** The 100 markers of a row, block after block. *)
Definition grid (b : Z) : list bool :=
  flat_map (fun j => map (cell b j) (range 10)) (range 10).

Definition cell_text (m : bool) : string := if m then " 1 " else "-1 ".

Definition cell_token (m : bool) : string := if m then "1" else "-1".

(** The text of row [i]. *)
Definition row_text (samples i : Z) : string :=
  "{ " +:+ fmt_d i +:+ " } " +:+ cat (map cell_text (grid (i / (samples / 10)))).

End gen2.

(** ** tests/images/mnist/makeTrainDataForNeural2d.py *)

Module mnist.

Abbreviation byte := Init.Byte.byte.

(** Module-level constants of the script. *)
Definition TRAIN_IMAGES : string := "train-images.idx3-ubyte".
Definition TRAIN_LABELS : string := "train-labels.idx1-ubyte".
Definition DEST_DIR_TRAIN : string := "train-data".
Definition falseVal : Z := -1.
Definition trueVal : Z := 1.
Definition MNIST_URL : string := "http://yann.lecun.com/exdb/mnist/".

(** A file opened with ["rb"]: its bytes and the read position. *)
Record file : Type := { data : list byte; pos : nat }.

(** A PIL image: mode ["L"] holds one byte per pixel, mode ["RGB"] three. *)
Inductive image : Type :=
  | ImageL (width height : Z) (px : list byte)
  | ImageRGB (width height : Z) (px : list (byte * byte * byte)).

(** What the run reads and what it changes outside itself:
    - [ifile], [lfile]: the two input files, already opened;
    - [paths]: the paths that exist, extended by [os.makedirs];
    - [created]: the files created or truncated by [open(.., "wt")];
    - [saved]: the files written by [im.save], oldest first;
    - [config]: the strings written to the manifest, oldest first;
    - [stdout]: the lines printed.
    The input files are taken as opened successfully and are not
    changed by the run's own writes; failures of the output calls
    themselves are not modelled. *)
Record world : Type := {
  ifile : file;
  lfile : file;
  paths : list string;
  created : list string;
  saved : list (string * image);
  config : list string;
  stdout : list string
}.

Definition start (idata ldata : list byte) (existing : list string) : world :=
  {| ifile := {| data := idata; pos := 0 |};
     lfile := {| data := ldata; pos := 0 |};
     paths := existing; created := []; saved := []; config := []; stdout := [] |}.

Inductive handle : Type := Ifile | Lfile.

Definition file_of (h : handle) (w : world) : file :=
  match h with Ifile => ifile w | Lfile => lfile w end.

Definition set_file (h : handle) (f : file) (w : world) : world :=
  match h with
  | Ifile => {| ifile := f; lfile := lfile w; paths := paths w; created := created w;
                saved := saved w; config := config w; stdout := stdout w |}
  | Lfile => {| ifile := ifile w; lfile := f; paths := paths w; created := created w;
                saved := saved w; config := config w; stdout := stdout w |}
  end.

(** [print(s)] *)
Definition print (s : string) : eff world unit :=
  modify (fun w => {| ifile := ifile w; lfile := lfile w; paths := paths w;
                      created := created w; saved := saved w; config := config w;
                      stdout := stdout w ++ [s] |}).

(** [os.path.exists(p)] *)
Definition path_exists (p : string) : eff world bool :=
  w <- get ;; ret (existsb (String.eqb p) (paths w)).

(** [os.makedirs(p)] *)
Definition makedirs (p : string) : eff world unit :=
  modify (fun w => {| ifile := ifile w; lfile := lfile w; paths := paths w ++ [p];
                      created := created w; saved := saved w; config := config w;
                      stdout := stdout w |}).

(** [open(p, "wt")]: the file exists and is empty from here on. *)
Definition open_wt (p : string) : eff world unit :=
  modify (fun w => {| ifile := ifile w; lfile := lfile w; paths := paths w;
                      created := created w ++ [p]; saved := saved w; config := config w;
                      stdout := stdout w |}).

(** [config.write(s)] *)
Definition config_write (s : string) : eff world unit :=
  modify (fun w => {| ifile := ifile w; lfile := lfile w; paths := paths w;
                      created := created w; saved := saved w; config := config w ++ [s];
                      stdout := stdout w |}).

(** [im.save(name)] *)
Definition save (im : image) (name : string) : eff world unit :=
  modify (fun w => {| ifile := ifile w; lfile := lfile w; paths := paths w;
                      created := created w; saved := saved w ++ [(name, im)];
                      config := config w; stdout := stdout w |}).

(** [f.seek(n)] *)
Definition seek (h : handle) (n : nat) : eff world unit :=
  modify (fun w => set_file h {| data := data (file_of h w); pos := n |} w).

(** [f.read(n)]: the next [n] bytes, fewer at the end of the file. *)
Definition read (h : handle) (n : nat) : eff world (list byte) :=
  w <- get ;;
  let f := file_of h w in
  let bs := take n (drop (pos f) (data f)) in
  modify (set_file h {| data := data f; pos := (pos f + length bs)%nat |}) ;;;
  ret bs.

(** The number a byte stands for, from 0 to 255. *)
Definition byte_val (b : byte) : Z := Z.of_N (Byte.to_N b).

(** [ord(b)] on a bytes object: defined on length 1 only. *)
Definition ord (bs : list byte) : eff world Z :=
  match bs with
  | [b] => ret (byte_val b)
  | _ => raise TypeError
  end.

(** The four-statement pattern of lines 63-66, 70-73, 84-87 and 91-94. *)
Definition shift_accumulate (h : handle) : eff world Z :=
  b <- read h 1 ;; o <- ord b ;;
  let n := Z.shiftl o 24 in
  b <- read h 1 ;; o <- ord b ;;
  let n := n + Z.shiftl o 16 in
  b <- read h 1 ;; o <- ord b ;;
  let n := n + Z.shiftl o 8 in
  b <- read h 1 ;; o <- ord b ;;
  let n := n + o in
  ret n.

(** [Image.frombytes("L", (width, height), bytes)] *)
Definition frombytes (width height : Z) (bytes : list byte) : eff world image :=
  if Z.of_nat (length bytes) =? width * height
  then ret (ImageL width height bytes)
  else raise ValueError.

(** [im.convert("RGB")] *)
Definition convert_RGB (im : image) : image :=
  match im with
  | ImageL w h px => ImageRGB w h (map (fun p => (p, p, p)) px)
  | ImageRGB _ _ _ => im
  end.

(** [l[i] = v] on a Python list. *)
Definition setitem (l : list Z) (i v : Z) : eff world (list Z) :=
  let n := Z.of_nat (length l) in
  if (0 <=? i) && (i <? n) then ret (<[Z.to_nat i := v]> l)
  else if (- n <=? i) && (i <? 0) then ret (<[Z.to_nat (i + n) := v]> l)
  else raise IndexError.

(** ["%s/%s%d.bmp" % (destDir, prefix, indexNum)] *)
Definition bmp_name (destDir prefix : string) (indexNum : Z) : string :=
  destDir +:+ "/" +:+ prefix +:+ fmt_d indexNum +:+ ".bmp".

(** The format of line 127 applied to the file name and the ten values. *)
Definition config_line (imageFilename : string) (targetVals : list Z) : string :=
  "images/mnist/" +:+ imageFilename
    +:+ " " +:+ fmt_d (nth 0 targetVals 0)
    +:+ " " +:+ fmt_d (nth 1 targetVals 0)
    +:+ " " +:+ fmt_d (nth 2 targetVals 0)
    +:+ " " +:+ fmt_d (nth 3 targetVals 0)
    +:+ " " +:+ fmt_d (nth 4 targetVals 0)
    +:+ " " +:+ fmt_d (nth 5 targetVals 0)
    +:+ " " +:+ fmt_d (nth 6 targetVals 0)
    +:+ " " +:+ fmt_d (nth 7 targetVals 0)
    +:+ " " +:+ fmt_d (nth 8 targetVals 0)
    +:+ " " +:+ fmt_d (nth 9 targetVals 0)
    +:+ nl.

(** Lines 122 to 124. *)
Definition collect_targets : eff world (list Z) :=
  label <- read Lfile 1 ;;
  let targetVals := replicate 10 falseVal in
  i <- ord label ;;
  setitem targetVals i trueVal.

(** Lines 115 to 138: the body of the [while] loop. *)
Definition record (destDir prefix : string) (height width indexNum : Z) : eff world unit :=
  bytes <- read Ifile (Z.to_nat (height * width)) ;;
  im <- frombytes width height bytes ;;
  let im := convert_RGB im in
  let imageFilename := bmp_name destDir prefix indexNum in
  save im imageFilename ;;;
  targetVals <- collect_targets ;;
  config_write (config_line imageFilename targetVals).

(** Lines 113 to 140: [while numImages > 0], by recursion on the number
    of records left; [indexNum] counts up. *)
Fixpoint records (destDir prefix : string) (height width : Z)
    (numImages : nat) (indexNum : Z) : eff world unit :=
  match numImages with
  | O => ret tt
  | S numImages' =>
      record destDir prefix height width indexNum ;;;
      records destDir prefix height width numImages' (indexNum + 1)
  end.

Definition makeDataSet (imageFile labelFile destDir prefix configFile : string)
    : eff world unit :=
  print ("Extracting images and labels from " +:+ imageFile +:+ " and " +:+ labelFile) ;;;
  print ("into directory " +:+ destDir) ;;;
  ex <- path_exists destDir ;;
  (if ex : bool then ret tt else makedirs destDir) ;;;
  open_wt configFile ;;;
  seek Lfile 4 ;;;
  numLabels <- shift_accumulate Lfile ;;
  print ("# numLabels=" +:+ fmt_d numLabels) ;;;
  seek Ifile 4 ;;;
  numImages <- shift_accumulate Ifile ;;
  print ("# numImages=" +:+ fmt_d numImages) ;;;
  (if negb (numImages =? numLabels) then
     print "Error: the image and label files don't appear to be matching MNIST database files." ;;;
     print ("Download the necessary files from " +:+ MNIST_URL) ;;;
     raise (SystemExit 1)
   else ret tt) ;;;
  seek Ifile 8 ;;;
  height <- shift_accumulate Ifile ;;
  print ("# height=" +:+ fmt_d height) ;;;
  seek Ifile 12 ;;;
  width <- shift_accumulate Ifile ;;
  print ("# width=" +:+ fmt_d width) ;;;
  (if negb (height =? 28) || negb (width =? 28) then
     print "Error: the database files don't appear to be the right files." ;;;
     print ("Download the necessary files from " +:+ MNIST_URL) ;;;
     raise (SystemExit 1)
   else ret tt) ;;;
  seek Ifile 16 ;;;
  seek Lfile 8 ;;;
  print "Writing BMP files... this may take a few minutes..." ;;;
  records destDir prefix height width (Z.to_nat numImages) 0.

(** The script's entry point. *)
Definition main : eff world unit :=
  makeDataSet TRAIN_IMAGES TRAIN_LABELS DEST_DIR_TRAIN "" "inputData-mnist.txt" ;;;
  print "Done. You can now run neural2d using topology.txt and inputData-train.txt or inputData-mnist.txt.".

(** *** The reader of the specification's design notes

    Section 9 of the specification asks for "an explicit big-endian
    32-bit unsigned integer reader over a positioned byte stream
    (seek-then-read-4-bytes)".  [be32_at] follows these words, not the
    script: the four bytes at [offset], most significant first; no
    value when fewer than four bytes are left. *)
Definition be32 (bs : list byte) : option Z :=
  match bs with
  | [_; _; _; _] => Some (fold_left (fun acc b => 256 * acc + byte_val b) bs 0)
  | _ => None
  end.

Definition be32_at (bytes : list byte) (offset : nat) : option Z :=
  be32 (take 4 (drop offset bytes)).

(** *** Closed forms used in the statements *)

(** The pixels of record [k]: 784 bytes from offset [0x10 + 784 * k]. *)
Definition pixels_of (idata : list byte) (k : nat) : list byte :=
  take 784 (drop (16 + 784 * k) idata).

(** The label byte of record [k]: the byte at offset [8 + k]. *)
Definition label_of (ldata : list byte) (k : nat) : option byte :=
  ldata !! (8 + k)%nat.

(** The target vector of label [L]. *)
Definition one_hot (L : nat) : list Z := <[L := trueVal]> (replicate 10 falseVal).

(** The path field of the manifest line of record [k]. *)
Definition path_field (destDir prefix : string) (k : Z) : string :=
  "images/mnist/" +:+ destDir +:+ "/" +:+ prefix +:+ fmt_d k +:+ ".bmp".

(** The lines printed while the headers are read: the two opening
    lines, then one line per field in [fields]. *)
Definition header_lines (imageFile labelFile destDir : string)
    (fields : list (string * Z)) : list string :=
  ["Extracting images and labels from " +:+ imageFile +:+ " and " +:+ labelFile;
   "into directory " +:+ destDir]
  ++ map (fun f => "# " +:+ fst f +:+ "=" +:+ fmt_d (snd f)) fields.

(** The world during the header phase: destination directory made when
    it was missing, manifest file opened, nothing saved or written,
    the input files at [ipos] and [lpos], [out] printed. *)
Definition opened (idata ldata : list byte) (existing : list string)
    (destDir configFile : string) (ipos lpos : nat) (out : list string) : world :=
  {| ifile := {| data := idata; pos := ipos |};
     lfile := {| data := ldata; pos := lpos |};
     paths := if existsb (String.eqb destDir) existing then existing
              else existing ++ [destDir];
     created := [configFile]; saved := []; config := []; stdout := out |}.

(** [makeDataSet] on a fresh world, with lines 53 to 109 replaced by
    what they compute from the four header fields (proved equal to
    [makeDataSet] as [makeDataSet_eq]). *)
Definition header_phase (imageFile labelFile destDir prefix configFile : string)
    (idata ldata : list byte) (existing : list string) : world * (exn + unit) :=
  let at_ ipos lpos fields extra :=
    opened idata ldata existing destDir configFile ipos lpos
      (header_lines imageFile labelFile destDir fields ++ extra) in
  let rest bytes offset := (offset + length (take 4 (drop offset bytes)))%nat in
  match be32_at ldata 4 with
  | None => (at_ 0%nat (rest ldata 4%nat) [] [], inl TypeError)
  | Some numLabels =>
  let f1 := [("numLabels", numLabels)] in
  match be32_at idata 4 with
  | None => (at_ (rest idata 4%nat) 8%nat f1 [], inl TypeError)
  | Some numImages =>
  let f2 := f1 ++ [("numImages", numImages)] in
  if negb (numImages =? numLabels) then
    (at_ 8%nat 8%nat f2
       ["Error: the image and label files don't appear to be matching MNIST database files.";
        "Download the necessary files from " +:+ MNIST_URL],
     inl (SystemExit 1))
  else
  match be32_at idata 8 with
  | None => (at_ (rest idata 8%nat) 8%nat f2 [], inl TypeError)
  | Some height =>
  let f3 := f2 ++ [("height", height)] in
  match be32_at idata 12 with
  | None => (at_ (rest idata 12%nat) 8%nat f3 [], inl TypeError)
  | Some width =>
  let f4 := f3 ++ [("width", width)] in
  if negb (height =? 28) || negb (width =? 28) then
    (at_ 16%nat 8%nat f4
       ["Error: the database files don't appear to be the right files.";
        "Download the necessary files from " +:+ MNIST_URL],
     inl (SystemExit 1))
  else
    records destDir prefix height width (Z.to_nat numImages) 0
      (at_ 16%nat 8%nat f4 ["Writing BMP files... this may take a few minutes..."])
  end end end end.

(** The bitmap saved for record [k]. *)
Definition bitmap_of (idata : list byte) (k : nat) : image :=
  ImageRGB 28 28 (map (fun p => (p, p, p)) (pixels_of idata k)).

(** The label of record [k] as an index. *)
Definition label_at (ldata : list byte) (k : nat) : nat :=
  match label_of ldata k with
  | Some b => Z.to_nat (byte_val b)
  | None => 0
  end.

(** The manifest line of record [k]. *)
Definition line_of (destDir prefix : string) (ldata : list byte) (k : nat) : string :=
  config_line (bmp_name destDir prefix (Z.of_nat k)) (one_hot (label_at ldata k)).

(** The world once the loop, started in [base] with the files behind
    their headers, has saved the bitmaps of the first [nb] records and
    written the lines of the first [nl]. *)
Definition extracted (base : world) (destDir prefix : string) (nb nl : nat) : world :=
  {| ifile := {| data := data (ifile base); pos := 16 + 784 * nb |};
     lfile := {| data := data (lfile base); pos := 8 + nb |};
     paths := paths base;
     created := created base;
     saved := saved base
       ++ map (fun k => (bmp_name destDir prefix (Z.of_nat k),
                         bitmap_of (data (ifile base)) k)) (seq 0 nb);
     config := config base ++ map (line_of destDir prefix (data (lfile base))) (seq 0 nl);
     stdout := stdout base |}.

(** The world in which the loop starts when both headers declare [n]
    items of 28x28 pixels. *)
Definition loop_start (imageFile labelFile destDir configFile : string)
    (idata ldata : list byte) (existing : list string) (n : Z) : world :=
  opened idata ldata existing destDir configFile 16 8
    (header_lines imageFile labelFile destDir
       [("numLabels", n); ("numImages", n); ("height", 28); ("width", 28)]
     ++ ["Writing BMP files... this may take a few minutes..."]).

(** All 784 pixel bytes of record [k] are in the image file. *)
Definition complete (idata : list byte) (k : nat) : Prop :=
  (16 + 784 * (k + 1) <= length idata)%nat.

(** The label byte of record [k] is in the label file and at most 9. *)
Definition label_in_range (ldata : list byte) (k : nat) : Prop :=
  exists b, label_of ldata k = Some b /\ byte_val b <= 9.

(** *** Small input files for the examples *)

Definition byte_of (n : N) : byte :=
  match Byte.of_N n with Some b => b | None => Init.Byte.x00 end.

(** An image file: magic number, item count, height, width, pixels. *)
Definition image_file (count height width : N) (pixels : list byte) : list byte :=
  map byte_of [0; 0; 8; 3; 0; 0; 0; count; 0; 0; 0; height; 0; 0; 0; width]%N ++ pixels.

(** A label file: magic number, item count, labels. *)
Definition label_file (count : N) (labels : list N) : list byte :=
  map byte_of ([0; 0; 8; 1; 0; 0; 0; count] ++ labels)%N.

(** Nothing has been written: no file created or truncated, no bitmap
    saved, no manifest text. *)
Definition no_output (w : world) : Prop :=
  created w = [] /\ saved w = [] /\ config w = [].

End mnist.

(** ** Further notions used in the statements *)

(** The grid tokens of a printed row: what follows the three label
    tokens. *)
Definition grid_tokens (line : string) : list string := drop 3 (tokens line).

(** A row without any [1] in its grid. *)
Definition unmarked (line : string) : bool :=
  Nat.eqb (count_tok "1" (grid_tokens line)) 0.

(** * Properties *)

(** ** The monad *)

Section EffFacts.
Context {S : Type}.

Lemma bind_ret_l {A B} (a : A) (k : A -> eff S B) (s : S) :
  bind (ret a) k s = k a s.
Proof. reflexivity. Qed.

Lemma bind_raise_l {A B} (e : exn) (k : A -> eff S B) (s : S) :
  bind (raise e) k s = (s, inl e).
Proof. reflexivity. Qed.

Lemma bind_modify {B} (f : S -> S) (k : unit -> eff S B) (s : S) :
  bind (modify f) k s = k tt (f s).
Proof. reflexivity. Qed.

Lemma bind_ok {A B} (c : eff S A) (k : A -> eff S B) (s s' : S) (a : A) :
  c s = (s', inr a) -> bind c k s = k a s'.
Proof. unfold bind. intros ->. reflexivity. Qed.

Lemma bind_err {A B} (c : eff S A) (k : A -> eff S B) (s s' : S) (e : exn) :
  c s = (s', inl e) -> bind c k s = (s', inl e).
Proof. unfold bind. intros ->. reflexivity. Qed.

Lemma for_each_ext {A} (xs : list A) (f g : A -> eff S unit) :
  (forall x s, f x s = g x s) -> forall s, for_each xs f s = for_each xs g s.
Proof.
  intros H. induction xs as [| x xs IH]; intros s; simpl; [reflexivity |].
  unfold bind. rewrite H. destruct (g x s) as [s' [e | []]]; auto.
Qed.

End EffFacts.

(** ** Text *)

Lemma append_cons (c : ascii) (s t : string) : String c s +:+ t = String c (s +:+ t).
Proof. reflexivity. Qed.

Lemma append_nil_r (s : string) : s +:+ "" = s.
Proof. induction s as [| c s IH]; [reflexivity | now rewrite append_cons, IH]. Qed.

Lemma append_assoc (a b c : string) : (a +:+ b) +:+ c = a +:+ (b +:+ c).
Proof. induction a as [| x a IH]; [reflexivity | now rewrite !append_cons, IH]. Qed.

Lemma plain_uint (d : Decimal.uint) : plain (NilEmpty.string_of_uint d) = true.
Proof. induction d; simpl; auto. Qed.

Lemma plain_fmt_d (z : Z) : plain (fmt_d z) = true.
Proof.
  unfold fmt_d. destruct z as [| p | p]; simpl; [reflexivity | |];
    unfold NilZero.string_of_uint; destruct (Pos.to_uint p) eqn:E;
    try reflexivity; rewrite <- E; simpl; apply plain_uint.
Qed.

(** Decimal text determines the number. *)
Lemma fmt_d_inj (a b : Z) : fmt_d a = fmt_d b -> a = b.
Proof.
  intros H.
  assert (R : forall z, NilZero.int_of_string (fmt_d z) = Some (Z.to_int z)).
  { intros z. unfold fmt_d. apply NilZero.isi; destruct z; simpl; try discriminate;
      intros [= E]; exact (Unsigned.to_uint_nonnil _ E). }
  pose proof (R a) as Ra. rewrite H, R in Ra. injection Ra as Ra.
  rewrite <- (DecimalZ.of_to a), <- (DecimalZ.of_to b). congruence.
Qed.

Lemma fmt_d_nonempty (z : Z) : fmt_d z <> "".
Proof.
  intros H. unfold fmt_d in H. destruct z as [| p | p]; simpl in H; try discriminate.
  unfold NilZero.string_of_uint in H.
  destruct (Pos.to_uint p); simpl in H; discriminate.
Qed.

Lemma flush_nonempty (s : string) : s <> "" -> flush s = [s].
Proof. destruct s; [congruence | reflexivity]. Qed.

(** Reading a run of non-blank characters extends the current token. *)
Lemma tokens_from_plain (t cur s : string) :
  plain t = true -> tokens_from cur (t +:+ s) = tokens_from (cur +:+ t) s.
Proof.
  revert cur. induction t as [| c t IH]; intros cur H.
  - now rewrite append_nil_r.
  - simpl in H. apply andb_prop in H as [Hc Ht].
    apply negb_true_iff in Hc. rewrite append_cons. simpl. rewrite Hc, IH by exact Ht.
    now rewrite append_assoc.
Qed.

Lemma count_tok_app (t : string) (a b : list string) :
  count_tok t (a ++ b) = (count_tok t a + count_tok t b)%nat.
Proof. unfold count_tok. now rewrite List.filter_app, length_app. Qed.

Lemma length_append (a b : string) :
  String.length (a +:+ b) = (String.length a + String.length b)%nat.
Proof.
  induction a as [| c a IH]; [reflexivity |].
  rewrite append_cons. simpl. now rewrite IH.
Qed.


Lemma cat_app (a b : list string) : cat (a ++ b) = cat a +:+ cat b.
Proof.
  induction a as [| x a IH]; [reflexivity |].
  change (cat ((x :: a) ++ b)) with (x +:+ cat (a ++ b)).
  change (cat (x :: a)) with (x +:+ cat a).
  now rewrite IH, append_assoc.
Qed.

Lemma cat_flat_map {A B} (f : A -> list B) (g : B -> string) (xs : list A) :
  cat (map (fun x => cat (map g (f x))) xs) = cat (map g (flat_map f xs)).
Proof.
  induction xs as [| x xs IH]; [reflexivity |].
  change (flat_map f (x :: xs)) with (f x ++ flat_map f xs).
  rewrite map_app, cat_app, <- IH. reflexivity.
Qed.

Lemma all_false_replicate (l : list bool) :
  Forall (fun m => m = false) l -> l = replicate (length l) false.
Proof. induction 1 as [| m l Hm _ IH]; simpl; [reflexivity | now rewrite Hm, <- IH]. Qed.

(** ** gen/gen2.py *)

Module gen2_facts.
Import gen2.

Lemma range_10 : range 10 = [0; 1; 2; 3; 4; 5; 6; 7; 8; 9].
Proof. reflexivity. Qed.

Lemma marked_ok {S} (samples i j k : Z) (s : S) :
  samples / 10 <> 0 ->
  marked samples i j k s = (s, inr (cell (i / (samples / 10)) j k)).
Proof.
  intros Hd. unfold marked, cell, floordiv.
  destruct (j =? k); [| reflexivity].
  change (10 =? 0) with false. cbv iota. rewrite bind_ret_l.
  apply Z.eqb_neq in Hd. rewrite Hd. reflexivity.
Qed.

Lemma marked_zero {S} (samples i j : Z) (s : S) :
  samples / 10 = 0 -> marked samples i j j s = (s, inl ZeroDivisionError).
Proof.
  intros Hd. unfold marked, floordiv. rewrite Z.eqb_refl.
  change (10 =? 0) with false. cbv iota. rewrite bind_ret_l, Hd. reflexivity.
Qed.

Lemma for_each_add_out {A} (xs : list A) (g : A -> string) (v : vars) :
  for_each xs (fun x => add_out (g x)) v
  = ({| out := out v +:+ cat (map g xs); stdout := stdout v |}, inr tt).
Proof.
  revert v. induction xs as [| x xs IH]; intros v.
  - simpl. rewrite append_nil_r. now destruct v.
  - simpl. unfold add_out at 1. rewrite bind_modify, IH. simpl.
    now rewrite append_assoc.
Qed.

(** The two nested loops append the 100 markers of the row's bucket. *)
Lemma grid_loops (samples i : Z) (v : vars) :
  samples / 10 <> 0 ->
  for_each (range 10) (fun j =>
    for_each (range 10) (fun k =>
      m <- marked samples i j k ;; add_out (if m : bool then " 1 " else "-1 "))) v
  = ({| out := out v +:+ cat (map cell_text (grid (i / (samples / 10))));
        stdout := stdout v |}, inr tt).
Proof.
  intros Hd. set (b := i / (samples / 10)).
  rewrite (for_each_ext _ _
    (fun j => add_out (cat (map cell_text (map (cell b j) (range 10)))))).
  - rewrite for_each_add_out. unfold grid.
    now rewrite (cat_flat_map (fun j => map (cell b j) (range 10)) cell_text).
  - intros j s.
    rewrite (for_each_ext _ _ (fun k => add_out (cell_text (cell b j k)))).
    + rewrite for_each_add_out, map_map. reflexivity.
    + intros k t. rewrite (bind_ok _ _ _ _ _ (marked_ok samples i j k t Hd)).
      reflexivity.
Qed.

Lemma row_ok (samples i : Z) (v : vars) :
  samples / 10 <> 0 ->
  row samples i v
  = ({| out := row_text samples i; stdout := stdout v ++ [row_text samples i] |}, inr tt).
Proof.
  intros Hd. unfold row, set_out. rewrite bind_modify.
  rewrite (bind_ok _ _ _ _ _ (grid_loops samples i _ Hd)).
  unfold print_out, modify, row_text. simpl. now rewrite !append_assoc.
Qed.

(** With [samples / 10 = 0] the first cell of the first block divides by
    zero: the row is never printed. *)
Lemma row_zero (samples i : Z) (v : vars) :
  samples / 10 = 0 ->
  row samples i v
  = ({| out := "{ " +:+ fmt_d i +:+ " } "; stdout := stdout v |}, inl ZeroDivisionError).
Proof.
  intros Hd. unfold row, set_out. rewrite bind_modify, range_10.
  apply bind_err. simpl for_each. apply bind_err. apply bind_err. apply bind_err.
  now rewrite marked_zero.
Qed.

Lemma rows_ok (samples : Z) (xs : list Z) (v : vars) :
  samples / 10 <> 0 ->
  exists o, for_each xs (row samples) v
    = ({| out := o; stdout := stdout v ++ map (row_text samples) xs |}, inr tt).
Proof.
  intros Hd. revert v. induction xs as [| x xs IH]; intros v.
  - exists (out v). simpl. rewrite app_nil_r. now destruct v.
  - simpl. rewrite (bind_ok _ _ _ _ _ (row_ok samples x v Hd)).
    destruct (IH {| out := row_text samples x;
                    stdout := stdout v ++ [row_text samples x] |}) as [o Ho].
    exists o. rewrite Ho. simpl. now rewrite <- app_assoc.
Qed.

(** For [samples] with a non-zero tenth the run ends normally and has
    printed the rows of [range(samples)], in order. *)
Lemma main_ok (samples : Z) :
  samples / 10 <> 0 ->
  exists o, main (Some samples) init
    = ({| out := o; stdout := map (row_text samples) (range samples) |}, inr tt).
Proof. intros Hd. exact (rows_ok samples (range samples) init Hd). Qed.

Lemma tokens_cells (ms : list bool) :
  tokens_from "" (cat (map cell_text ms)) = map cell_token ms.
Proof.
  induction ms as [| m ms IH]; [reflexivity |].
  change (cat (map cell_text (m :: ms))) with (cell_text m +:+ cat (map cell_text ms)).
  destruct m.
  - change (tokens_from "" (cell_text true +:+ cat (map cell_text ms)))
      with ("1" :: tokens_from "" (cat (map cell_text ms))).
    now rewrite IH.
  - change (tokens_from "" (cell_text false +:+ cat (map cell_text ms)))
      with ("-1" :: tokens_from "" (cat (map cell_text ms))).
    now rewrite IH.
Qed.

(** A row splits into the three label tokens and the 100 grid tokens. *)
Lemma tokens_row_text (samples i : Z) :
  tokens (row_text samples i)
  = "{" :: fmt_d i :: "}" :: map cell_token (grid (i / (samples / 10))).
Proof.
  unfold tokens, row_text. set (C := cat _).
  change (tokens_from "" ("{ " +:+ fmt_d i +:+ " } " +:+ C))
    with ("{" :: tokens_from "" (fmt_d i +:+ " } " +:+ C)).
  rewrite tokens_from_plain by apply plain_fmt_d.
  change (tokens_from ("" +:+ fmt_d i) (" } " +:+ C))
    with (flush (fmt_d i) ++ "}" :: tokens_from "" C).
  rewrite flush_nonempty by apply fmt_d_nonempty.
  unfold C. now rewrite tokens_cells.
Qed.

Lemma length_grid (b : Z) : length (grid b) = 100%nat.
Proof. reflexivity. Qed.

(** A bucket from 0 to 9 marks exactly cell [(b, b)]. *)
Lemma grid_inside (b : Z) :
  0 <= b <= 9 ->
  let g := map cell_token (grid b) in
  count_tok "1" g = 1%nat /\ count_tok "-1" g = 99%nat
  /\ g !! Z.to_nat (10 * b + b) = Some "1".
Proof.
  intros Hb.
  assert (E : b = 0 \/ b = 1 \/ b = 2 \/ b = 3 \/ b = 4 \/ b = 5 \/ b = 6
              \/ b = 7 \/ b = 8 \/ b = 9) by lia.
  repeat (destruct E as [-> | E]); try subst b; vm_compute; auto.
Qed.

(** Any other bucket marks no cell. *)
Lemma grid_outside (b : Z) : ~ 0 <= b <= 9 -> grid b = replicate 100 false.
Proof.
  intros Hb. rewrite <- (length_grid b). apply all_false_replicate.
  apply List.Forall_forall. intros m Hm. unfold grid in Hm.
  apply in_flat_map in Hm as (j & _ & Hm). apply in_map_iff in Hm as (k & <- & Hk).
  unfold cell. apply andb_false_intro2. apply Z.eqb_neq.
  apply list_elem_of_In, elem_of_seqZ in Hk. lia.
Qed.

Lemma lookup_rows (samples i : Z) :
  0 <= i < samples ->
  map (row_text samples) (range samples) !! Z.to_nat i = Some (row_text samples i).
Proof.
  intros Hi. unfold range.
  change (map (row_text samples) (seqZ 0 samples))
    with (row_text samples <$> seqZ 0 samples).
  rewrite list_lookup_fmap.
  assert (E : seqZ 0 samples !! Z.to_nat i = Some i).
  { apply lookup_seqZ. lia. }
  now rewrite E.
Qed.

Lemma length_rows (samples : Z) :
  0 <= samples ->
  Z.of_nat (length (map (row_text samples) (range samples))) = samples.
Proof. intros H. unfold range. rewrite length_map, length_seqZ. lia. Qed.

(** The label tokens of a line among the counted ones: the row number
    is itself the token [1] in row 1, and never the token [-1]. *)
Lemma count_1_line (i : Z) (g : list string) :
  count_tok "1" ("{" :: fmt_d i :: "}" :: g)
  = ((if (i =? 1)%Z then 1 else 0) + count_tok "1" g)%nat.
Proof.
  change ("{" :: fmt_d i :: "}" :: g) with (["{"] ++ [fmt_d i] ++ ["}"] ++ g).
  rewrite !count_tok_app.
  change (count_tok "1" ["{"]) with 0%nat. change (count_tok "1" ["}"]) with 0%nat.
  destruct (Z.eqb_spec i 1) as [-> | Hi]; [reflexivity |].
  assert (E : count_tok "1" [fmt_d i] = 0%nat); [| now rewrite E].
  unfold count_tok. cbn [List.filter].
  destruct (String.eqb_spec (fmt_d i) "1") as [E | E]; [| reflexivity].
  exfalso. apply Hi. apply fmt_d_inj. exact E.
Qed.

Lemma count_m1_line (i : Z) (g : list string) :
  0 <= i ->
  count_tok "-1" ("{" :: fmt_d i :: "}" :: g) = count_tok "-1" g.
Proof.
  intros Hi.
  change ("{" :: fmt_d i :: "}" :: g) with (["{"] ++ [fmt_d i] ++ ["}"] ++ g).
  rewrite !count_tok_app.
  change (count_tok "-1" ["{"]) with 0%nat. change (count_tok "-1" ["}"]) with 0%nat.
  assert (E : count_tok "-1" [fmt_d i] = 0%nat); [| now rewrite E].
  unfold count_tok. cbn [List.filter].
  destruct (String.eqb_spec (fmt_d i) "-1") as [E | E]; [| reflexivity].
  exfalso. change "-1"%string with (fmt_d (-1)) in E. apply fmt_d_inj in E. lia.
Qed.

(** C4, as stated, fails: with [samples = 10] the second printed line,
    row 1, holds two tokens [1], its row number and the cell [(1, 1)],
    next to 99 tokens [-1]. *)
Lemma row_1_has_two_ones :
  0 < 10 /\ 10 mod 10 = 0
  /\ exists v line,
       main (Some 10) init = (v, inr tt)
       /\ stdout v !! 1%nat = Some line
       /\ line = "{ 1 } " +:+ cat (replicate 11 "-1 ") +:+ " 1 "
                   +:+ cat (replicate 88 "-1 ")
       /\ count_tok "1" (tokens line) = 2%nat
       /\ count_tok "-1" (tokens line) = 99%nat
       /\ ~ (forall samples, 0 < samples -> samples mod 10 = 0 ->
              exists v', main (Some samples) init = (v', inr tt)
                /\ Z.of_nat (length (stdout v')) = samples
                /\ forall l, In l (stdout v') ->
                     count_tok "1" (tokens l) = 1%nat
                     /\ count_tok "-1" (tokens l) = 99%nat).
Proof.
  split; [lia |]. split; [reflexivity |].
  destruct (main_ok 10 ltac:(vm_compute; discriminate)) as [o Ho].
  pose proof (lookup_rows 10 1 ltac:(lia)) as Hrow.
  assert (H2 : count_tok "1" (tokens (row_text 10 1)) = 2%nat)
    by (vm_compute; reflexivity).
  eexists _, _. split; [exact Ho |]. cbn [stdout].
  split; [exact Hrow |].
  split; [vm_compute; reflexivity |].
  split; [exact H2 |].
  split; [vm_compute; reflexivity |].
  intros H. destruct (H 10 ltac:(lia) eq_refl) as (v' & Hv & _ & Hall).
  rewrite Ho in Hv. injection Hv as <-. cbn [stdout] in Hall.
  apply list_elem_of_lookup_2, list_elem_of_In in Hrow.
  destruct (Hall _ Hrow) as [H1 _]. rewrite H2 in H1. discriminate.
Qed.

(** C4, amended: for every [samples > 0] divisible by 10 the generator
    ends normally having printed exactly [samples] lines.  Line [i]
    consists of the label tokens [{], [i], [}] and 100 grid tokens;
    exactly one grid token is [1] and 99 are [-1], and the [1] is the
    token of cell [(bucket, bucket)] for [bucket = i / (samples / 10)].
    Counted over the whole line there are 99 tokens [-1] and one token
    [1], except in row 1, whose row number is a second token [1]. *)
Theorem generator_rows (samples : Z) :
  0 < samples -> samples mod 10 = 0 ->
  exists v, main (Some samples) init = (v, inr tt)
    /\ Z.of_nat (length (stdout v)) = samples
    /\ forall i, 0 <= i < samples ->
         let bucket := i / (samples / 10) in
         exists line g, stdout v !! Z.to_nat i = Some line
           /\ tokens line = "{" :: fmt_d i :: "}" :: g
           /\ length g = 100%nat
           /\ count_tok "1" g = 1%nat /\ count_tok "-1" g = 99%nat
           /\ 0 <= bucket <= 9
           /\ g !! Z.to_nat (10 * bucket + bucket) = Some "1"
           /\ count_tok "1" (tokens line) = (if (i =? 1)%Z then 2 else 1)%nat
           /\ count_tok "-1" (tokens line) = 99%nat.
Proof.
  intros Hpos Hmod.
  assert (Hs : samples = 10 * (samples / 10)).
  { pose proof (Z.div_mod samples 10 ltac:(lia)). lia. }
  assert (Hd : 0 < samples / 10) by lia.
  destruct (main_ok samples ltac:(lia)) as [o Ho].
  eexists. split; [exact Ho |]. cbn [stdout].
  split; [apply length_rows; lia |].
  intros i Hi. cbv zeta. set (bucket := i / (samples / 10)).
  assert (Hb : 0 <= bucket <= 9).
  { unfold bucket. split; [apply Z.div_pos; lia |].
    enough (i / (samples / 10) < 10) by lia.
    apply Z.div_lt_upper_bound; lia. }
  exists (row_text samples i), (map cell_token (grid bucket)).
  destruct (grid_inside bucket Hb) as (H1 & H2 & H3).
  split; [now apply lookup_rows |].
  split; [apply tokens_row_text |].
  split; [now rewrite length_map, length_grid |].
  split; [exact H1 |]. split; [exact H2 |]. split; [exact Hb |].
  split; [exact H3 |].
  rewrite tokens_row_text. fold bucket.
  rewrite count_1_line, count_m1_line, H1, H2 by lia.
  split; [destruct (i =? 1); reflexivity | reflexivity].
Qed.

Lemma generator_rows_witness :
  exists v, main (Some 10) init = (v, inr tt) /\ Z.of_nat (length (stdout v)) = 10.
Proof.
  destruct (generator_rows 10 ltac:(lia) eq_refl) as (v & Hv & Hl & _).
  exists v. split; assumption.
Defined.

(** C7, as stated, fails: with [samples = 5] the first row divides by
    [samples / 10 = 0]. *)
Lemma generator_raises_at_5 :
  main (Some 5) init = ({| out := "{ 0 } "; stdout := [] |}, inl ZeroDivisionError)
  /\ ~ (forall samples, 0 < samples ->
          exists v, main (Some samples) init = (v, inr tt)).
Proof.
  assert (E : main (Some 5) init
              = ({| out := "{ 0 } "; stdout := [] |}, inl ZeroDivisionError))
    by reflexivity.
  split; [exact E |].
  intros H. destruct (H 5 ltac:(lia)) as [v Hv]. rewrite E in Hv. discriminate.
Qed.

(** C7, amended: for [samples] from 1 to 9 the run raises
    [ZeroDivisionError] in the first row, before anything is printed;
    for every other integer it ends normally, having printed the rows of
    [range(samples)]. *)
Theorem generator_outcome (samples : Z) :
  let r := main (Some samples) init in
  if (1 <=? samples) && (samples <=? 9)
  then r = ({| out := "{ 0 } "; stdout := [] |}, inl ZeroDivisionError)
  else snd r = inr tt
       /\ stdout (fst r) = map (row_text samples) (range samples)
       /\ length (stdout (fst r)) = Z.to_nat samples.
Proof.
  intros r. subst r.
  destruct ((1 <=? samples) && (samples <=? 9)) eqn:E.
  - apply andb_prop in E as [E1 E2]. apply Z.leb_le in E1, E2.
    assert (Hd : samples / 10 = 0) by (apply Z.div_small; lia).
    unfold main, generate, range.
    replace samples with (Z.succ (samples - 1)) at 1 by lia.
    rewrite seqZ_cons by lia. simpl for_each.
    apply bind_err. now rewrite row_zero.
  - assert (Hl : length (map (row_text samples) (range samples)) = Z.to_nat samples).
    { unfold range. now rewrite length_map, length_seqZ. }
    destruct (Z.le_gt_cases samples 0) as [Hle | Hgt].
    + unfold main, generate, range. rewrite seqZ_nil by lia.
      split; [reflexivity |]. split; [reflexivity |]. simpl. lia.
    + assert (10 <= samples).
      { apply andb_false_iff in E as [E | E];
          [apply Z.leb_gt in E | apply Z.leb_gt in E]; lia. }
      assert (Hd : samples / 10 <> 0).
      { pose proof (Z.div_le_lower_bound samples 10 1 ltac:(lia) ltac:(lia)). lia. }
      destruct (main_ok samples Hd) as [o Ho]. rewrite Ho. simpl. auto.
Qed.

Lemma fmt_d_not_1 (i : Z) : i <> 1 -> count_tok "1" [fmt_d i] = 0%nat.
Proof.
  intros Hi. unfold count_tok. simpl.
  destruct (String.eqb_spec (fmt_d i) "1") as [E | E]; [| reflexivity].
  exfalso. apply Hi. apply fmt_d_inj. exact E.
Qed.

(** C8: when [samples] is not divisible by 10, every row [i] whose
    bucket [i / (samples / 10)] exceeds 9 is printed with no [1] token
    at all; its 100 grid tokens are all [-1]. *)
Theorem trailing_rows_unmarked (samples i : Z) :
  samples mod 10 <> 0 -> 0 <= i < samples -> 9 < i / (samples / 10) ->
  exists v line, main (Some samples) init = (v, inr tt)
    /\ stdout v !! Z.to_nat i = Some line
    /\ tokens line = "{" :: fmt_d i :: "}" :: replicate 100 "-1"
    /\ count_tok "1" (tokens line) = 0%nat.
Proof.
  intros _ Hi Hb.
  assert (Hd : samples / 10 <> 0).
  { intros E. rewrite E, Z.div_0_r in Hb. lia. }
  assert (Hd' : 0 < samples / 10).
  { pose proof (Z.div_pos samples 10 ltac:(lia) ltac:(lia)). lia. }
  assert (Hi1 : i <> 1).
  { intros ->.
    assert (1 / (samples / 10) <= 1) by (apply Z.div_le_upper_bound; lia). lia. }
  destruct (main_ok samples Hd) as [o Ho].
  exists {| out := o; stdout := map (row_text samples) (range samples) |},
    (row_text samples i).
  assert (T : tokens (row_text samples i)
              = "{" :: fmt_d i :: "}" :: replicate 100 "-1").
  { rewrite tokens_row_text, grid_outside by lia. reflexivity. }
  split; [exact Ho |]. split; [now apply lookup_rows |]. split; [exact T |].
  rewrite T.
  change ("{" :: fmt_d i :: "}" :: replicate 100 "-1")
    with (["{"] ++ [fmt_d i] ++ "}" :: replicate 100 "-1").
  rewrite !count_tok_app, fmt_d_not_1 by exact Hi1. reflexivity.
Qed.

Lemma trailing_rows_unmarked_witness :
  exists v line, main (Some 12) init = (v, inr tt)
    /\ stdout v !! 11%nat = Some line
    /\ count_tok "1" (tokens line) = 0%nat.
Proof.
  destruct (trailing_rows_unmarked 12 11 ltac:(vm_compute; discriminate)
              ltac:(lia) ltac:(vm_compute; reflexivity))
    as (v & line & H1 & H2 & _ & H3).
  exists v, line. repeat split; assumption.
Defined.

End gen2_facts.

(** ** tests/images/mnist/makeTrainDataForNeural2d.py *)

Module mnist_facts.
Import mnist.

(** *** Files *)

Lemma file_of_set_file (h : handle) (f : file) (w : world) :
  file_of h (set_file h f w) = f.
Proof. now destruct h. Qed.

Lemma set_file_twice (h : handle) (f g : file) (w : world) :
  set_file h g (set_file h f w) = set_file h g w.
Proof. now destruct h. Qed.

Lemma set_file_same (h : handle) (w : world) : set_file h (file_of h w) w = w.
Proof. now destruct h, w. Qed.

Lemma byte_val_range (b : byte) : 0 <= byte_val b <= 255.
Proof. unfold byte_val. pose proof (Byte.to_N_bounded b). lia. Qed.

Lemma read_eq (h : handle) (n : nat) (w : world) :
  read h n w
  = let f := file_of h w in
    let bs := take n (drop (pos f) (data f)) in
    (set_file h {| data := data f; pos := pos f + length bs |} w, inr bs).
Proof. reflexivity. Qed.

(** Reading one byte and taking [ord]: the next byte when there is one. *)
Lemma read1_ord_some {B} (h : handle) (w : world) (b : byte) (r : list byte)
    (k : Z -> eff world B) :
  drop (pos (file_of h w)) (data (file_of h w)) = b :: r ->
  (bs <- read h 1 ;; o <- ord bs ;; k o) w
  = k (byte_val b)
      (set_file h {| data := data (file_of h w); pos := S (pos (file_of h w)) |} w).
Proof.
  intros E. unfold bind at 1. rewrite read_eq. cbv zeta. rewrite E. simpl.
  now rewrite Nat.add_1_r.
Qed.

(** At the end of the file [read] gives no byte and [ord] raises. *)
Lemma read1_ord_none {B} (h : handle) (w : world) (k : Z -> eff world B) :
  drop (pos (file_of h w)) (data (file_of h w)) = [] ->
  (bs <- read h 1 ;; o <- ord bs ;; k o) w = (w, inl TypeError).
Proof.
  intros E. unfold bind at 1. rewrite read_eq. cbv zeta. rewrite E. simpl.
  rewrite Nat.add_0_r.
  replace {| data := data (file_of h w); pos := pos (file_of h w) |}
    with (file_of h w) by now destruct (file_of h w).
  now rewrite set_file_same.
Qed.

Lemma drop_next {A} (n : nat) (l : list A) (x : A) (r : list A) :
  drop n l = x :: r -> drop (S n) l = r.
Proof.
  intros E. replace (S n) with (n + 1)%nat by lia.
  rewrite <- drop_drop, E. reflexivity.
Qed.

(** *** Header fields *)

Lemma be32_bounds (bs : list byte) (v : Z) : be32 bs = Some v -> 0 <= v < 2 ^ 32.
Proof.
  destruct bs as [| b0 [| b1 [| b2 [| b3 [| ? ?]]]]]; try discriminate.
  intros [= <-]. simpl.
  pose proof (byte_val_range b0). pose proof (byte_val_range b1).
  pose proof (byte_val_range b2). pose proof (byte_val_range b3).
  change (2 ^ 32) with 4294967296. lia.
Qed.

(** The four one-byte reads with their shifts, from the current
    position: the big-endian value of the next four bytes, or
    [TypeError] when the file ends before the fourth. *)
Lemma shift_accumulate_eq (h : handle) (w : world) :
  let f := file_of h w in
  let bs := take 4 (drop (pos f) (data f)) in
  shift_accumulate h w
  = (set_file h {| data := data f; pos := pos f + length bs |} w,
     match be32 bs with Some v => inr v | None => inl TypeError end).
Proof.
  cbv zeta. unfold shift_accumulate.
  destruct (file_of h w) as [d p] eqn:Ef.
  assert (Hd : data (file_of h w) = d) by now rewrite Ef.
  assert (Hp : pos (file_of h w) = p) by now rewrite Ef.
  cbn [data pos].
  assert (W0 : set_file h {| data := d; pos := p + 0 |} w = w).
  { rewrite Nat.add_0_r, <- Ef. apply set_file_same. }
  destruct (drop p d) as [| b0 l0] eqn:E0.
  { rewrite read1_ord_none by now rewrite Hd, Hp. simpl. now rewrite W0. }
  rewrite (read1_ord_some h w b0 l0) by now rewrite Hd, Hp.
  rewrite Hd, Hp.
  set (w1 := set_file h {| data := d; pos := S p |} w).
  assert (F1 : file_of h w1 = {| data := d; pos := S p |}) by apply file_of_set_file.
  pose proof (drop_next _ _ _ _ E0) as E1.
  destruct l0 as [| b1 l1].
  { rewrite read1_ord_none by now rewrite F1. unfold w1. simpl.
    now rewrite Nat.add_1_r. }
  rewrite (read1_ord_some h w1 b1 l1) by now rewrite F1.
  rewrite F1. cbn [data pos]. unfold w1. rewrite set_file_twice.
  set (w2 := set_file h {| data := d; pos := S (S p) |} w).
  assert (F2 : file_of h w2 = {| data := d; pos := S (S p) |}) by apply file_of_set_file.
  pose proof (drop_next _ _ _ _ E1) as E2.
  destruct l1 as [| b2 l2].
  { rewrite read1_ord_none by now rewrite F2. unfold w2. simpl.
    now replace (p + 2)%nat with (S (S p)) by lia. }
  rewrite (read1_ord_some h w2 b2 l2) by now rewrite F2.
  rewrite F2. cbn [data pos]. unfold w2. rewrite set_file_twice.
  set (w3 := set_file h {| data := d; pos := S (S (S p)) |} w).
  assert (F3 : file_of h w3 = {| data := d; pos := S (S (S p)) |}) by apply file_of_set_file.
  pose proof (drop_next _ _ _ _ E2) as E3.
  destruct l2 as [| b3 l3].
  { rewrite read1_ord_none by now rewrite F3. unfold w3. simpl.
    now replace (p + 3)%nat with (S (S (S p))) by lia. }
  rewrite (read1_ord_some h w3 b3 l3) by now rewrite F3.
  rewrite F3. cbn [data pos]. unfold w3. rewrite set_file_twice.
  unfold ret. change (take 4 (b0 :: b1 :: b2 :: b3 :: l3)) with [b0; b1; b2; b3].
  cbn [length be32 fold_left].
  replace (p + 4)%nat with (S (S (S (S p)))) by lia.
  do 2 f_equal.
  rewrite !Z.shiftl_mul_pow2 by lia.
  change (2 ^ 24) with 16777216. change (2 ^ 16) with 65536. change (2 ^ 8) with 256.
  lia.
Qed.

(** C9: for every byte stream and every offset, seeking to the offset
    and running the script's four shifted one-byte reads yields exactly
    the value of the big-endian 32-bit unsigned reader at that offset,
    a number below 2^32, and leaves the file behind the bytes read;
    where fewer than four bytes are left the reader has no value and the
    script raises [TypeError].  The four header fields are the
    instances [(Lfile, 4)], [(Ifile, 4)], [(Ifile, 8)], [(Ifile, 12)]. *)
Theorem shift_accumulate_refines_be32 (h : handle) (offset : nat) (w : world) :
  let bytes := data (file_of h w) in
  (seek h offset ;;; shift_accumulate h) w
  = (set_file h {| data := bytes;
                   pos := offset + length (take 4 (drop offset bytes)) |} w,
     match be32_at bytes offset with Some v => inr v | None => inl TypeError end)
  /\ (forall v, be32_at bytes offset = Some v -> 0 <= v < 2 ^ 32).
Proof.
  cbv zeta. split.
  - unfold seek. rewrite bind_modify, shift_accumulate_eq.
    cbv zeta. rewrite file_of_set_file, set_file_twice. reflexivity.
  - intros v. apply be32_bounds.
Qed.

Lemma be32_at_length (bytes : list byte) (offset : nat) (v : Z) :
  be32_at bytes offset = Some v -> length (take 4 (drop offset bytes)) = 4%nat.
Proof.
  unfold be32_at.
  destruct (take 4 (drop offset bytes)) as [| ? [| ? [| ? [| ? [| ? ?]]]]];
    now try discriminate.
Qed.

(** *** The header phase *)

Section Header.
Variables (imageFile labelFile destDir prefix configFile : string).
Variables (idata ldata : list byte) (existing : list string).

Local Arguments shift_accumulate : simpl never.
Local Arguments records : simpl never.
Local Arguments existsb : simpl never.
Local Arguments fmt_d : simpl never.
Local Arguments take : simpl never.
Local Arguments drop : simpl never.

Lemma makeDataSet_eq :
  makeDataSet imageFile labelFile destDir prefix configFile
    (start idata ldata existing)
  = header_phase imageFile labelFile destDir prefix configFile idata ldata existing.
Proof.
  unfold makeDataSet, header_phase, print, path_exists, open_wt, makedirs, seek,
    opened, start, header_lines.
  unfold bind, modify, get, ret, raise.
  cbn. destruct (existsb (String.eqb destDir) existing); cbn.
  all: rewrite shift_accumulate_eq; cbn; fold (be32_at ldata 4).
  all: destruct (be32_at ldata 4) as [numLabels |] eqn:E1; [| reflexivity].
  all: rewrite (be32_at_length _ _ _ E1); cbn.
  all: rewrite shift_accumulate_eq; cbn; fold (be32_at idata 4).
  all: destruct (be32_at idata 4) as [numImages |] eqn:E2; [| reflexivity].
  all: rewrite (be32_at_length _ _ _ E2); cbn.
  all: destruct (negb (numImages =? numLabels)); cbn; [reflexivity |].
  all: rewrite shift_accumulate_eq; cbn; fold (be32_at idata 8).
  all: destruct (be32_at idata 8) as [height |] eqn:E3; [| reflexivity].
  all: rewrite ?(be32_at_length _ _ _ E3); cbn.
  all: rewrite shift_accumulate_eq; cbn; fold (be32_at idata 12).
  all: destruct (be32_at idata 12) as [width |] eqn:E4; [| reflexivity].
  all: rewrite ?(be32_at_length _ _ _ E4); cbn.
  all: destruct (negb (height =? 28) || negb (width =? 28)); cbn; reflexivity.
Qed.
End Header.

(** *** One record *)

Section Records.
Variables (destDir prefix : string).

Local Arguments take : simpl never.
Local Arguments drop : simpl never.
Local Arguments fmt_d : simpl never.
Local Arguments Z.mul : simpl never.
Local Arguments Nat.mul : simpl never.
Local Arguments Nat.add : simpl never.
Local Arguments seq : simpl never.

Lemma bind_read {B} (h : handle) (n : nat) (k : list byte -> eff world B) (w : world) :
  bind (read h n) k w
  = let f := file_of h w in
    let bs := take n (drop (pos f) (data f)) in
    k bs (set_file h {| data := data f; pos := pos f + length bs |} w).
Proof. reflexivity. Qed.

Lemma take_one_lookup {A} (l : list A) (n : nat) (x : A) :
  l !! n = Some x -> take 1 (drop n l) = [x].
Proof.
  intros H. rewrite <- (Nat.add_0_r n), <- lookup_drop in H.
  destruct (drop n l) as [| y r]; [discriminate |].
  injection H as ->. reflexivity.
Qed.

Lemma take_one_none {A} (l : list A) (n : nat) :
  l !! n = None -> take 1 (drop n l) = [].
Proof.
  intros H. rewrite <- (Nat.add_0_r n), <- lookup_drop in H.
  destruct (drop n l) as [| y r]; [reflexivity | discriminate].
Qed.

Lemma length_pixels (idata : list byte) (k : nat) :
  complete idata k -> length (pixels_of idata k) = 784%nat.
Proof.
  unfold complete, pixels_of. intros H. rewrite length_take, length_drop. lia.
Qed.

Lemma seq_snoc_map {A} (f : nat -> A) (l : list A) (n : nat) :
  (l ++ map f (seq 0 n)) ++ [f n] = l ++ map f (seq 0 (S n)).
Proof. rewrite seq_S, map_app, <- app_assoc. reflexivity. Qed.

(** Lines 122 to 124 in closed form. *)
Lemma collect_targets_eq (w : world) :
  collect_targets w
  = match data (lfile w) !! pos (lfile w) with
    | None => (w, inl TypeError)
    | Some b =>
        let w' := set_file Lfile {| data := data (lfile w);
                                    pos := pos (lfile w) + 1 |} w in
        if byte_val b <? 10
        then (w', inr (one_hot (Z.to_nat (byte_val b))))
        else (w', inl IndexError)
    end.
Proof.
  unfold collect_targets. rewrite bind_read. cbv zeta.
  change (file_of Lfile w) with (lfile w).
  destruct (data (lfile w) !! pos (lfile w)) as [b |] eqn:E.
  - rewrite (take_one_lookup _ _ _ E). cbn [length ord].
    rewrite bind_ret_l. unfold setitem. rewrite length_replicate.
    pose proof (byte_val_range b) as Hr.
    replace (0 <=? byte_val b) with true by (symmetry; apply Z.leb_le; lia).
    cbn [andb]. change (Z.of_nat 10) with 10.
    destruct (byte_val b <? 10) eqn:Lt; [reflexivity |].
    apply Z.ltb_ge in Lt.
    replace (byte_val b <? 0) with false by (symmetry; apply Z.ltb_ge; lia).
    rewrite andb_false_r. reflexivity.
  - rewrite (take_one_none _ _ E). cbn [length ord].
    rewrite bind_raise_l, Nat.add_0_r.
    replace {| data := data (lfile w); pos := pos (lfile w) |}
      with (file_of Lfile w) by now destruct w as [? [? ?]].
    now rewrite set_file_same.
Qed.

(** A complete record with a label of at most 9: one bitmap saved, one
    line written. *)
Lemma record_good (base : world) (j : nat) (b : byte) :
  complete (data (ifile base)) j ->
  label_of (data (lfile base)) j = Some b ->
  byte_val b <= 9 ->
  record destDir prefix 28 28 (Z.of_nat j) (extracted base destDir prefix j j)
  = (extracted base destDir prefix (S j) (S j), inr tt).
Proof.
  intros Hc Hl Hb. pose proof (byte_val_range b) as Hr.
  unfold record. rewrite bind_read. cbn.
  change (Z.to_nat (28 * 28)) with 784%nat.
  fold (pixels_of (data (ifile base)) j).
  unfold frombytes. rewrite (length_pixels _ _ Hc).
  change (Z.of_nat 784 =? 28 * 28) with true. cbn.
  unfold bind at 1. rewrite collect_targets_eq. cbn.
  unfold label_of in Hl. rewrite Hl. cbn.
  replace (byte_val b <? 10) with true by (symmetry; apply Z.ltb_lt; lia).
  unfold config_write, modify, extracted. cbn.
  f_equal. f_equal.
  - f_equal. lia.
  - f_equal. lia.
  - apply (seq_snoc_map (fun k => (bmp_name destDir prefix (Z.of_nat k),
                                  bitmap_of (data (ifile base)) k))).
  - rewrite <- (seq_snoc_map (line_of destDir prefix (data (lfile base)))).
    unfold line_of at 3, label_at, label_of. now rewrite Hl.
Qed.

(** A complete record with a label above 9: the bitmap is saved, then
    the assignment raises and no line is written. *)
Lemma record_bad (base : world) (j : nat) (b : byte) :
  complete (data (ifile base)) j ->
  label_of (data (lfile base)) j = Some b ->
  10 <= byte_val b ->
  record destDir prefix 28 28 (Z.of_nat j) (extracted base destDir prefix j j)
  = (extracted base destDir prefix (S j) j, inl IndexError).
Proof.
  intros Hc Hl Hb.
  unfold record. rewrite bind_read. cbn.
  change (Z.to_nat (28 * 28)) with 784%nat.
  fold (pixels_of (data (ifile base)) j).
  unfold frombytes. rewrite (length_pixels _ _ Hc).
  change (Z.of_nat 784 =? 28 * 28) with true. cbn.
  unfold bind at 1. rewrite collect_targets_eq. cbn.
  unfold label_of in Hl. rewrite Hl. cbn.
  replace (byte_val b <? 10) with false by (symmetry; apply Z.ltb_ge; lia).
  unfold extracted. cbn.
  f_equal. f_equal.
  - f_equal. lia.
  - f_equal. lia.
  - apply (seq_snoc_map (fun k => (bmp_name destDir prefix (Z.of_nat k),
                                  bitmap_of (data (ifile base)) k))).
Qed.

(** The loop over [n] good records. *)
Lemma records_good (base : world) (n j : nat) :
  (forall k, (j <= k < j + n)%nat ->
     complete (data (ifile base)) k /\ label_in_range (data (lfile base)) k) ->
  records destDir prefix 28 28 n (Z.of_nat j) (extracted base destDir prefix j j)
  = (extracted base destDir prefix (j + n) (j + n), inr tt).
Proof.
  revert j. induction n as [| n IH]; intros j H.
  - rewrite Nat.add_0_r. reflexivity.
  - destruct (H j ltac:(lia)) as (Hc & b & Hl & Hb).
    cbn [records]. rewrite (bind_ok _ _ _ _ _ (record_good base j b Hc Hl Hb)).
    replace (Z.of_nat j + 1) with (Z.of_nat (S j)) by lia.
    rewrite IH by (intros k Hk; apply H; lia).
    now replace (S j + n)%nat with (j + S n)%nat by lia.
Qed.

(** The loop stops at the first label above 9. *)
Lemma records_bad (base : world) (n m : nat) (b : byte) :
  (m < n)%nat ->
  (forall k, (k < m)%nat ->
     complete (data (ifile base)) k /\ label_in_range (data (lfile base)) k) ->
  complete (data (ifile base)) m ->
  label_of (data (lfile base)) m = Some b ->
  10 <= byte_val b ->
  records destDir prefix 28 28 n 0 (extracted base destDir prefix 0 0)
  = (extracted base destDir prefix (S m) m, inl IndexError).
Proof.
  intros Hm Hgood Hc Hl Hb.
  replace n with (m + S (n - S m))%nat by lia.
  assert (G : forall a c j w,
             records destDir prefix 28 28 (a + c) j w
             = bind (records destDir prefix 28 28 a j)
                 (fun _ => records destDir prefix 28 28 c (j + Z.of_nat a)) w).
  { induction a as [| a IHa]; intros c j w.
    - cbn [records Nat.add]. rewrite bind_ret_l. now rewrite Z.add_0_r.
    - change (S a + c)%nat with (S (a + c)). cbn [records].
      unfold bind.
      destruct (record destDir prefix 28 28 j w) as [w' [e | []]]; [reflexivity |].
      rewrite IHa. unfold bind.
      destruct (records destDir prefix 28 28 a (j + 1) w') as [w'' [e | []]];
        [reflexivity |].
      f_equal. lia. }
  rewrite G.
  rewrite (bind_ok _ _ _ _ _ (records_good base m 0 ltac:(intros k Hk; apply Hgood; lia))).
  cbn [records Nat.add].
  change (0 + Z.of_nat m) with (Z.of_nat m).
  apply bind_err. apply (record_bad base m b); assumption.
Qed.

(** What one pass of the loop body does on any world: the label file's
    bytes stay, its position does not go back; a normal end has saved a
    bitmap under the current file name, read a label byte of at most 9
    and appended the line of its target vector under that name; an
    exception appends no line, and [IndexError] is raised only on a label
    byte above 9. *)
Lemma record_general (height width idx : Z) (w : world) :
  let r := record destDir prefix height width idx w in
  data (lfile (fst r)) = data (lfile w)
  /\ (pos (lfile w) <= pos (lfile (fst r)))%nat
  /\ match snd r with
     | inr _ => exists b im,
         data (lfile w) !! pos (lfile w) = Some b /\ byte_val b <= 9
         /\ pos (lfile (fst r)) = (pos (lfile w) + 1)%nat
         /\ saved (fst r) = saved w ++ [(bmp_name destDir prefix idx, im)]
         /\ config (fst r)
            = config w ++ [config_line (bmp_name destDir prefix idx)
                             (one_hot (Z.to_nat (byte_val b)))]
     | inl e =>
         config (fst r) = config w
         /\ (exists ims, saved (fst r) = saved w ++ ims)
         /\ (e = IndexError ->
             exists b, data (lfile w) !! pos (lfile w) = Some b /\ 10 <= byte_val b)
     end.
Proof.
  cbv zeta. destruct (record destDir prefix height width idx w) as [w' r] eqn:R.
  cbn [fst snd]. unfold record in R. rewrite bind_read in R. cbv zeta in R.
  unfold frombytes in R.
  destruct (Z.of_nat (length _) =? width * height) in R.
  2:{ rewrite bind_raise_l in R. injection R as <- <-. cbn.
      split; [reflexivity |]. split; [apply Nat.le_refl |].
      split; [reflexivity |]. split; [| discriminate].
      exists []. now rewrite app_nil_r. }
  rewrite bind_ret_l in R. unfold save in R. rewrite bind_modify in R.
  unfold bind in R. rewrite collect_targets_eq in R. cbn in R.
  destruct (data (lfile w) !! pos (lfile w)) as [b |] eqn:E; cbn in R.
  2:{ injection R as <- <-. cbn.
      split; [reflexivity |]. split; [apply Nat.le_refl |].
      split; [reflexivity |]. split; [| discriminate].
      eexists. reflexivity. }
  destruct (byte_val b <? 10) eqn:Lt; cbn in R; injection R as <- <-; cbn.
  - apply Z.ltb_lt in Lt.
    split; [reflexivity |]. split; [apply Nat.le_add_r |].
    exists b. eexists. split; [reflexivity |]. split; [apply Z.lt_succ_r; exact Lt |].
    split; [reflexivity |]. split; reflexivity.
  - apply Z.ltb_ge in Lt.
    split; [reflexivity |]. split; [apply Nat.le_add_r |]. split; [reflexivity |].
    split; [eexists; reflexivity |].
    intros _. exists b. auto.
Qed.

(** The same for the whole loop: line [j] of those appended belongs to
    the [j]-th label byte from the start position and to file name
    [idx + j], under which the [j]-th bitmap of this loop was saved. *)
Lemma records_general (height width : Z) (n : nat) (idx : Z) (w : world) :
  let r := records destDir prefix height width n idx w in
  data (lfile (fst r)) = data (lfile w)
  /\ (pos (lfile w) <= pos (lfile (fst r)))%nat
  /\ (exists lines ims,
        config (fst r) = config w ++ lines
        /\ saved (fst r) = saved w ++ ims
        /\ forall (j : nat) (line : string), lines !! j = Some line ->
             exists b im,
               data (lfile w) !! (pos (lfile w) + j)%nat = Some b
               /\ byte_val b <= 9
               /\ ims !! j = Some (bmp_name destDir prefix (idx + Z.of_nat j), im)
               /\ line = config_line (bmp_name destDir prefix (idx + Z.of_nat j))
                           (one_hot (Z.to_nat (byte_val b))))
  /\ (snd r = inl IndexError ->
      exists (k : nat) (b : byte),
        (pos (lfile w) <= k)%nat /\ data (lfile w) !! k = Some b /\ 10 <= byte_val b).
Proof.
  cbv zeta. revert idx w. induction n as [| n IH]; intros idx w.
  - cbn. split; [reflexivity |]. split; [apply Nat.le_refl |]. split; [| discriminate].
    exists [], []. split; [now rewrite app_nil_r |]. split; [now rewrite app_nil_r |].
    intros j line H. discriminate.
  - cbn [records]. unfold bind.
    pose proof (record_general height width idx w) as R. cbv zeta in R.
    destruct (record destDir prefix height width idx w) as [w1 [e | []]];
      cbn [fst snd] in *.
    + destruct R as (Rd & Rp & Rc & (ims & Rs) & Re).
      split; [assumption |]. split; [assumption |]. split.
      * exists [], ims. split; [now rewrite app_nil_r |]. split; [assumption |].
        intros j line H. discriminate.
      * intros [= ->]. destruct (Re eq_refl) as (b & Hb1 & Hb2).
        exists (pos (lfile w)), b. auto.
    + destruct R as (Rd & Rp & b & im & Rb1 & Rb2 & Rq & Rs & Rc).
      destruct (IH (idx + 1) w1) as (Id & Ip & (lines & ims & Ic & Is & Il) & Ie).
      split; [congruence |]. split; [eapply Nat.le_trans; eassumption |]. split.
      * exists (config_line (bmp_name destDir prefix idx)
                  (one_hot (Z.to_nat (byte_val b))) :: lines),
          ((bmp_name destDir prefix idx, im) :: ims).
        split; [rewrite Ic, Rc, <- app_assoc; reflexivity |].
        split; [rewrite Is, Rs, <- app_assoc; reflexivity |].
        intros [| j] line H.
        { injection H as <-. exists b, im. rewrite Nat.add_0_r, Z.add_0_r. auto. }
        destruct (Il j line H) as (b' & im' & Hb1 & Hb2 & Hb3 & ->). exists b', im'.
        rewrite Rd, Rq in Hb1.
        replace (pos (lfile w) + S j)%nat with (pos (lfile w) + 1 + j)%nat
          by (rewrite <- Nat.add_assoc; reflexivity).
        replace (idx + Z.of_nat (S j)) with (idx + 1 + Z.of_nat j)
          by (rewrite Nat2Z.inj_succ, <- Z.add_1_l, Z.add_assoc; reflexivity).
        auto.
      * intros H. destruct (Ie H) as (k & b' & Hk & Hb1 & Hb2).
        exists k, b'. rewrite <- Rd. split; [| auto].
        eapply Nat.le_trans; eassumption.
Qed.
End Records.

(** *** Whole runs *)

Section Runs.
Variables (imageFile labelFile destDir prefix configFile : string).
Variables (idata ldata : list byte) (existing : list string).

Local Abbreviation run :=
  (makeDataSet imageFile labelFile destDir prefix configFile
     (start idata ldata existing)).

Local Abbreviation base n :=
  (loop_start imageFile labelFile destDir configFile idata ldata existing n).

Lemma run_loop (n : Z) :
  be32_at ldata 4 = Some n -> be32_at idata 4 = Some n ->
  be32_at idata 8 = Some 28 -> be32_at idata 12 = Some 28 ->
  run = records destDir prefix 28 28 (Z.to_nat n) 0
          (extracted (base n) destDir prefix 0 0).
Proof.
  intros E1 E2 E3 E4. rewrite makeDataSet_eq. unfold header_phase.
  cbv zeta. rewrite E1, E2, E3, E4, Z.eqb_refl. reflexivity.
Qed.

(** Matching headers, [n] complete records, labels at most 9. *)
Lemma run_well_formed (n : Z) :
  be32_at ldata 4 = Some n -> be32_at idata 4 = Some n ->
  be32_at idata 8 = Some 28 -> be32_at idata 12 = Some 28 ->
  (forall k, (k < Z.to_nat n)%nat -> complete idata k /\ label_in_range ldata k) ->
  run = (extracted (base n) destDir prefix (Z.to_nat n) (Z.to_nat n), inr tt).
Proof.
  intros E1 E2 E3 E4 H. rewrite (run_loop n E1 E2 E3 E4).
  apply (records_good destDir prefix (base n) (Z.to_nat n) 0).
  intros k Hk. apply H. lia.
Qed.

(** Matching headers, a first label above 9 at record [m]. *)
Lemma run_bad_label (n : Z) (m : nat) (b : byte) :
  be32_at ldata 4 = Some n -> be32_at idata 4 = Some n ->
  be32_at idata 8 = Some 28 -> be32_at idata 12 = Some 28 ->
  (m < Z.to_nat n)%nat ->
  (forall k, (k < m)%nat -> complete idata k /\ label_in_range ldata k) ->
  complete idata m -> label_of ldata m = Some b -> 10 <= byte_val b ->
  run = (extracted (base n) destDir prefix (S m) m, inl IndexError).
Proof.
  intros E1 E2 E3 E4 Hm Hk Hc Hl Hb. rewrite (run_loop n E1 E2 E3 E4).
  now apply (records_bad destDir prefix (base n) (Z.to_nat n) m b).
Qed.

(** Item counts that differ. *)
Lemma run_count_mismatch (numLabels numImages : Z) :
  be32_at ldata 4 = Some numLabels -> be32_at idata 4 = Some numImages ->
  numImages <> numLabels ->
  run = (opened idata ldata existing destDir configFile 8 8
           (header_lines imageFile labelFile destDir
              [("numLabels", numLabels); ("numImages", numImages)]
            ++ ["Error: the image and label files don't appear to be matching MNIST database files.";
                "Download the necessary files from " +:+ MNIST_URL]),
         inl (SystemExit 1)).
Proof.
  intros E1 E2 Hne. rewrite makeDataSet_eq. unfold header_phase.
  cbv zeta. rewrite E1, E2. apply Z.eqb_neq in Hne. rewrite Hne. reflexivity.
Qed.

(** Equal item counts, a height or width other than 28. *)
Lemma run_bad_dimensions (n height width : Z) :
  be32_at ldata 4 = Some n -> be32_at idata 4 = Some n ->
  be32_at idata 8 = Some height -> be32_at idata 12 = Some width ->
  height <> 28 \/ width <> 28 ->
  run = (opened idata ldata existing destDir configFile 16 8
           (header_lines imageFile labelFile destDir
              [("numLabels", n); ("numImages", n); ("height", height); ("width", width)]
            ++ ["Error: the database files don't appear to be the right files.";
                "Download the necessary files from " +:+ MNIST_URL]),
         inl (SystemExit 1)).
Proof.
  intros E1 E2 E3 E4 Hd. rewrite makeDataSet_eq. unfold header_phase.
  cbv zeta. rewrite E1, E2, E3, E4, Z.eqb_refl.
  replace (negb (height =? 28) || negb (width =? 28)) with true; [reflexivity |].
  symmetry. apply orb_true_iff.
  destruct Hd as [Hd | Hd]; [left | right]; apply negb_true_iff, Z.eqb_neq, Hd.
Qed.

(** On any input: line [j] of the manifest is the line of record [j],
    whose label byte is at most 9 and whose bitmap is the [j]-th file
    saved; [IndexError] needs a label byte above 9. *)
Lemma run_general :
  (forall (j : nat) (line : string), config (fst run) !! j = Some line ->
     exists b im, label_of ldata j = Some b /\ byte_val b <= 9
               /\ saved (fst run) !! j = Some (bmp_name destDir prefix (Z.of_nat j), im)
               /\ line = line_of destDir prefix ldata j)
  /\ (snd run = inl IndexError ->
      exists (k : nat) (b : byte), label_of ldata k = Some b /\ 10 <= byte_val b).
Proof.
  rewrite makeDataSet_eq. unfold header_phase. cbv zeta.
  destruct (be32_at ldata 4) as [numLabels |];
    [| split; [intros j line H | intros H]; discriminate].
  destruct (be32_at idata 4) as [numImages |];
    [| split; [intros j line H | intros H]; discriminate].
  destruct (negb (numImages =? numLabels));
    [split; [intros j line H | intros H]; discriminate |].
  destruct (be32_at idata 8) as [height |];
    [| split; [intros j line H | intros H]; discriminate].
  destruct (be32_at idata 12) as [width |];
    [| split; [intros j line H | intros H]; discriminate].
  destruct (negb (height =? 28) || negb (width =? 28));
    [split; [intros j line H | intros H]; discriminate |].
  match goal with
  | |- context [records _ _ _ _ ?n ?i ?w] =>
      set (w0 := w);
      destruct (records_general destDir prefix height width n i w0)
        as (_ & _ & (lines & ims & Hc & Hs & Hl) & He)
  end.
  change (config w0 ++ lines) with lines in Hc.
  change (saved w0 ++ ims) with ims in Hs.
  change (pos (lfile w0)) with 8%nat in Hl, He.
  change (data (lfile w0)) with ldata in Hl, He.
  split.
  - intros j line H. rewrite Hc in H.
    destruct (Hl j line H) as (b & im & Hb1 & Hb2 & Hb3 & ->).
    exists b, im. split; [exact Hb1 |]. split; [exact Hb2 |].
    split; [rewrite Hs; exact Hb3 |].
    unfold line_of, label_at, label_of. now rewrite Hb1.
  - intros H. destruct (He H) as (k & b & Hk & Hb1 & Hb2).
    exists (k - 8)%nat, b. split; [| exact Hb2].
    unfold label_of. now replace (8 + (k - 8))%nat with k by lia.
Qed.
End Runs.

(** *** Target vectors, file names, lines *)

Lemma one_hot_spec (L : nat) :
  (L < 10)%nat ->
  length (one_hot L) = 10%nat
  /\ one_hot L !! L = Some trueVal
  /\ (forall i, (i < 10)%nat -> i <> L -> one_hot L !! i = Some falseVal).
Proof.
  intros HL. unfold one_hot. split; [| split].
  - now rewrite length_insert, length_replicate.
  - apply list_lookup_insert_eq. now rewrite length_replicate.
  - intros i Hi Hne. rewrite list_lookup_insert_ne by congruence.
    now apply lookup_replicate_2.
Qed.


Lemma path_field_eq (destDir prefix : string) (k : Z) :
  path_field destDir prefix k = "images/mnist/" +:+ bmp_name destDir prefix k.
Proof. reflexivity. Qed.

(** A manifest line starts with the path field and a blank. *)
Lemma config_line_path (destDir prefix : string) (k : Z) (tv : list Z) :
  exists rest,
    config_line (bmp_name destDir prefix k) tv
    = path_field destDir prefix k +:+ " " +:+ rest.
Proof.
  eexists. unfold config_line. rewrite path_field_eq.
  rewrite (append_assoc "images/mnist/"). reflexivity.
Qed.


(** *** The extractor's claims *)

(** The text of a line with ten values, character for character: the
    fixed directory, the file name, then each value in decimal after one
    space, and a newline. *)
Lemma config_line_text (destDir prefix : string) (k : Z) (targetVals : list Z) :
  length targetVals = 10%nat ->
  config_line (bmp_name destDir prefix k) targetVals
  = "images/mnist/" +:+ destDir +:+ "/" +:+ prefix +:+ fmt_d k +:+ ".bmp"
      +:+ cat (map (fun v => " " +:+ fmt_d v) targetVals) +:+ nl.
Proof.
  intros H.
  do 10 (destruct targetVals as [| ? targetVals]; [discriminate H |]).
  destruct targetVals; [| discriminate H].
  unfold config_line, bmp_name, cat. cbn [nth map fold_right].
  rewrite !append_assoc. reflexivity.
Qed.

(** C1: for every record whose label byte [L] is from 0 to 9, the
    manifest line written for that record is, character for character,
    the path [images/mnist/<destDir>/<prefix><j>.bmp] followed by the
    ten values of a target vector, each in decimal after one space, and
    a newline; the vector has 10 elements, [trueVal] at index [L] and
    [falseVal] at the other nine indices, with [trueVal = 1], printed
    as [1], and [falseVal = -1], printed as [-1]. *)
Theorem manifest_line_one_hot
    (imageFile labelFile destDir prefix configFile : string)
    (idata ldata : list byte) (existing : list string)
    (j : nat) (b : byte) (line : string) :
  label_of ldata j = Some b ->
  0 <= byte_val b <= 9 ->
  config (fst (makeDataSet imageFile labelFile destDir prefix configFile
                 (start idata ldata existing))) !! j = Some line ->
  let L := Z.to_nat (byte_val b) in
  exists targetVals,
    line = "images/mnist/" +:+ destDir +:+ "/" +:+ prefix
             +:+ fmt_d (Z.of_nat j) +:+ ".bmp"
             +:+ cat (map (fun v => " " +:+ fmt_d v) targetVals) +:+ nl
    /\ line = config_line (bmp_name destDir prefix (Z.of_nat j)) targetVals
    /\ length targetVals = 10%nat
    /\ targetVals !! L = Some trueVal
    /\ (forall i, (i < 10)%nat -> i <> L -> targetVals !! i = Some falseVal)
    /\ map fmt_d targetVals !! L = Some "1"
    /\ (forall i, (i < 10)%nat -> i <> L -> map fmt_d targetVals !! i = Some "-1")
    /\ trueVal = 1 /\ falseVal = -1.
Proof.
  intros Hl Hb Hline L.
  destruct (run_general imageFile labelFile destDir prefix configFile
              idata ldata existing) as [G _].
  destruct (G j line Hline) as (b' & _ & Hl' & _ & _ & ->).
  exists (one_hot L). unfold line_of, label_at. rewrite Hl. fold L.
  destruct (one_hot_spec L ltac:(lia)) as (H1 & H2 & H3).
  split; [apply config_line_text; exact H1 |].
  split; [reflexivity |].
  split; [exact H1 |].
  split; [exact H2 |].
  split; [exact H3 |].
  split; [rewrite list_lookup_fmap, H2; reflexivity |].
  split; [intros i Hi Hn; rewrite list_lookup_fmap, (H3 i Hi Hn); reflexivity |].
  split; reflexivity.
Qed.

Lemma manifest_line_one_hot_witness :
  exists targetVals,
    "images/mnist/d/p0.bmp -1 -1 -1 1 -1 -1 -1 -1 -1 -1" +:+ nl
    = "images/mnist/" +:+ "d" +:+ "/" +:+ "p" +:+ fmt_d 0 +:+ ".bmp"
        +:+ cat (map (fun v => " " +:+ fmt_d v) targetVals) +:+ nl
    /\ targetVals !! 3%nat = Some 1
    /\ map fmt_d targetVals !! 3%nat = Some "1".
Proof.
  destruct (manifest_line_one_hot "i" "l" "d" "p" "c"
              (image_file 1 28 28 (replicate 784 (byte_of 0))) (label_file 1 [3%N]) []
              0 (byte_of 3) ("images/mnist/d/p0.bmp -1 -1 -1 1 -1 -1 -1 -1 -1 -1" +:+ nl)
              eq_refl ltac:(vm_compute; split; discriminate) ltac:(vm_compute; reflexivity))
    as (tv & H1 & _ & _ & H2 & _ & H3 & _).
  exists tv. split; [exact H1 | split; [exact H2 | exact H3]].
Defined.




(** C3, as stated, fails: with item counts 2 and 3 the run exits with
    status 1, but by then it has made the destination directory and has
    created (or truncated) the manifest file. *)
Lemma count_mismatch_touches_outputs :
  let idata := image_file 2 28 28 [] in
  let ldata := label_file 3 [] in
  let r := makeDataSet "i" "l" "d" "p" "c" (start idata ldata []) in
  be32_at ldata 4 = Some 3 /\ be32_at idata 4 = Some 2
  /\ snd r = inl (SystemExit 1)
  /\ created (fst r) = ["c"]
  /\ paths (fst r) = ["d"]
  /\ ~ no_output (fst r).
Proof.
  vm_compute. repeat (split; [reflexivity |]). intros (H & _). discriminate.
Qed.

(** C3, amended: when the two item counts differ the run exits with
    status 1 before any bitmap is saved and before any text is written
    to the manifest; what it has done by then is to make the
    destination directory if it was missing and to open the manifest
    file for writing, which creates it empty. *)
Theorem count_mismatch_aborts
    (imageFile labelFile destDir prefix configFile : string)
    (idata ldata : list byte) (existing : list string) (numLabels numImages : Z) :
  be32_at ldata 4 = Some numLabels ->
  be32_at idata 4 = Some numImages ->
  numImages <> numLabels ->
  let r := makeDataSet imageFile labelFile destDir prefix configFile
             (start idata ldata existing) in
  snd r = inl (SystemExit 1)
  /\ exit_status (snd r) = 1
  /\ saved (fst r) = []
  /\ config (fst r) = []
  /\ created (fst r) = [configFile]
  /\ paths (fst r) = if existsb (String.eqb destDir) existing then existing
                     else existing ++ [destDir].
Proof.
  intros E1 E2 Hne r. subst r.
  rewrite (run_count_mismatch imageFile labelFile destDir prefix configFile
             idata ldata existing numLabels numImages E1 E2 Hne).
  repeat (split; [reflexivity |]). reflexivity.
Qed.

Lemma count_mismatch_aborts_witness :
  let r := makeDataSet "i" "l" "d" "p" "c"
             (start (image_file 2 28 28 []) (label_file 3 []) []) in
  exit_status (snd r) = 1 /\ saved (fst r) = [] /\ config (fst r) = [].
Proof.
  destruct (count_mismatch_aborts "i" "l" "d" "p" "c"
              (image_file 2 28 28 []) (label_file 3 []) [] 3 2
              eq_refl eq_refl ltac:(discriminate))
    as (_ & H1 & H2 & H3 & _).
  cbv zeta. split; [exact H1 |]. split; [exact H2 | exact H3].
Defined.

(** C5, as stated, fails: with equal item counts and a declared height
    of 27 the run exits with status 1, but by then it has made the
    destination directory and has created (or truncated) the manifest
    file. *)
Lemma bad_height_touches_outputs :
  let idata := image_file 2 27 28 [] in
  let ldata := label_file 2 [] in
  let r := makeDataSet "i" "l" "d" "p" "c" (start idata ldata []) in
  be32_at ldata 4 = Some 2 /\ be32_at idata 4 = Some 2
  /\ be32_at idata 8 = Some 27 /\ be32_at idata 12 = Some 28
  /\ snd r = inl (SystemExit 1)
  /\ created (fst r) = ["c"]
  /\ paths (fst r) = ["d"]
  /\ ~ no_output (fst r).
Proof.
  vm_compute. repeat (split; [reflexivity |]). intros (H & _). discriminate.
Qed.

(** C5, amended: when the item counts are equal and the declared height
    or width is not 28, the run exits with status 1 before any bitmap is
    saved and before any text is written to the manifest, having made
    the destination directory if it was missing and opened the manifest
    file for writing.  The dimensions are checked only after the item
    counts: when the counts differ the run stops with the image file at
    offset 8, the height and width fields unread. *)
Theorem bad_dimensions_abort
    (imageFile labelFile destDir prefix configFile : string)
    (idata ldata : list byte) (existing : list string) :
  let r := makeDataSet imageFile labelFile destDir prefix configFile
             (start idata ldata existing) in
  (forall n height width : Z,
     be32_at ldata 4 = Some n -> be32_at idata 4 = Some n ->
     be32_at idata 8 = Some height -> be32_at idata 12 = Some width ->
     height <> 28 \/ width <> 28 ->
     snd r = inl (SystemExit 1)
     /\ exit_status (snd r) = 1
     /\ saved (fst r) = []
     /\ config (fst r) = []
     /\ created (fst r) = [configFile]
     /\ paths (fst r) = (if existsb (String.eqb destDir) existing then existing
                         else existing ++ [destDir])
     /\ pos (ifile (fst r)) = 16%nat)
  /\ (forall numLabels numImages : Z,
       be32_at ldata 4 = Some numLabels -> be32_at idata 4 = Some numImages ->
       numImages <> numLabels ->
       snd r = inl (SystemExit 1) /\ pos (ifile (fst r)) = 8%nat).
Proof.
  intros r. subst r. split.
  - intros n height width E1 E2 E3 E4 Hd.
    rewrite (run_bad_dimensions imageFile labelFile destDir prefix configFile
               idata ldata existing n height width E1 E2 E3 E4 Hd).
    repeat (split; [reflexivity |]). reflexivity.
  - intros numLabels numImages E1 E2 Hne.
    rewrite (run_count_mismatch imageFile labelFile destDir prefix configFile
               idata ldata existing numLabels numImages E1 E2 Hne).
    split; reflexivity.
Qed.

Lemma bad_dimensions_abort_witness :
  let r := makeDataSet "i" "l" "d" "p" "c"
             (start (image_file 2 27 28 []) (label_file 2 []) []) in
  exit_status (snd r) = 1 /\ saved (fst r) = [] /\ config (fst r) = [].
Proof.
  destruct (bad_dimensions_abort "i" "l" "d" "p" "c"
              (image_file 2 27 28 []) (label_file 2 []) []) as [A _].
  destruct (A 2 27 28 eq_refl eq_refl eq_refl eq_refl ltac:(left; discriminate))
    as (_ & H1 & H2 & H3 & _).
  cbv zeta. split; [exact H1 |]. split; [exact H2 | exact H3].
Defined.

(** C6: a record whose label byte is above 9, reached after complete
    records with labels of at most 9, makes the assignment to the target
    vector raise [IndexError]; the run ends there with status 1, the
    record's bitmap saved but no line written for it or for any later
    record.  Conversely, when every label byte is at most 9 the run
    never ends in [IndexError]. *)
Theorem label_out_of_range_raises
    (imageFile labelFile destDir prefix configFile : string)
    (idata ldata : list byte) (existing : list string) :
  let r := makeDataSet imageFile labelFile destDir prefix configFile
             (start idata ldata existing) in
  (forall (N : Z) (m : nat) (b : byte),
     be32_at ldata 4 = Some N -> be32_at idata 4 = Some N ->
     be32_at idata 8 = Some 28 -> be32_at idata 12 = Some 28 ->
     (m < Z.to_nat N)%nat ->
     (forall k, (k < m)%nat -> complete idata k /\ label_in_range ldata k) ->
     complete idata m -> label_of ldata m = Some b -> 10 <= byte_val b <= 255 ->
     snd r = inl IndexError
     /\ exit_status (snd r) = 1
     /\ config (fst r) = map (line_of destDir prefix ldata) (seq 0 m)
     /\ map fst (saved (fst r))
        = map (fun k => bmp_name destDir prefix (Z.of_nat k)) (seq 0 (S m)))
  /\ ((forall k b, label_of ldata k = Some b -> 0 <= byte_val b <= 9) ->
      snd r <> inl IndexError).
Proof.
  intros r. subst r. split.
  - intros N m b E1 E2 E3 E4 Hm Hk Hc Hl [Hb _].
    rewrite (run_bad_label imageFile labelFile destDir prefix configFile
               idata ldata existing N m b E1 E2 E3 E4 Hm Hk Hc Hl Hb).
    cbn [fst snd extracted saved config opened loop_start ifile lfile data app].
    split; [reflexivity |]. split; [reflexivity |]. split; [reflexivity |].
    now rewrite map_map.
  - intros Hall Herr.
    destruct (run_general imageFile labelFile destDir prefix configFile
                idata ldata existing) as [_ G].
    destruct (G Herr) as (k & b & Hl & Hb).
    destruct (Hall k b Hl) as [_ Hle]. lia.
Qed.

Lemma label_out_of_range_raises_witness :
  let r := makeDataSet "i" "l" "d" "p" "c"
             (start (image_file 1 28 28 (replicate 784 (byte_of 0)))
                    (label_file 1 [10%N]) []) in
  snd r = inl IndexError /\ exit_status (snd r) = 1.
Proof.
  destruct (label_out_of_range_raises "i" "l" "d" "p" "c"
              (image_file 1 28 28 (replicate 784 (byte_of 0)))
              (label_file 1 [10%N]) []) as [A _].
  destruct (A 1 0%nat (byte_of 10) eq_refl eq_refl eq_refl eq_refl
              ltac:(vm_compute; repeat constructor)
              ltac:(intros k Hk; exfalso; inversion Hk)
              ltac:(vm_compute; repeat constructor)
              eq_refl ltac:(vm_compute; split; discriminate))
    as (H1 & H2 & _).
  cbv zeta. split; [exact H1 | exact H2].
Defined.

(** C10: every manifest line written starts with its path field, the
    literal text [images/mnist/] followed by [destDir], [/], [prefix],
    the record index and [.bmp]; a blank and the target values follow.
    The path field is [images/mnist/] in front of the name under which
    the bitmap of the same record has been saved. *)
Theorem manifest_path_field
    (imageFile labelFile destDir prefix configFile : string)
    (idata ldata : list byte) (existing : list string)
    (j : nat) (line : string) :
  let r := makeDataSet imageFile labelFile destDir prefix configFile
             (start idata ldata existing) in
  config (fst r) !! j = Some line ->
  exists rest name im,
    line = ("images/mnist/" +:+ destDir +:+ "/" +:+ prefix +:+ fmt_d (Z.of_nat j)
            +:+ ".bmp") +:+ " " +:+ rest
    /\ saved (fst r) !! j = Some (name, im)
    /\ name = destDir +:+ "/" +:+ prefix +:+ fmt_d (Z.of_nat j) +:+ ".bmp".
Proof.
  intros r Hline. subst r.
  destruct (run_general imageFile labelFile destDir prefix configFile
              idata ldata existing) as [G _].
  destruct (G j line Hline) as (b & im & _ & _ & Hs & ->).
  destruct (config_line_path destDir prefix (Z.of_nat j) (one_hot (label_at ldata j)))
    as [rest Hrest].
  exists rest, (bmp_name destDir prefix (Z.of_nat j)), im.
  split; [exact Hrest |]. split; [exact Hs | reflexivity].
Qed.

Lemma manifest_path_field_witness :
  exists rest,
    "images/mnist/d/p0.bmp -1 -1 -1 1 -1 -1 -1 -1 -1 -1" +:+ nl
    = ("images/mnist/" +:+ "d" +:+ "/" +:+ "p" +:+ fmt_d 0 +:+ ".bmp") +:+ " " +:+ rest.
Proof.
  destruct (manifest_path_field "i" "l" "d" "p" "c"
              (image_file 1 28 28 (replicate 784 (byte_of 0))) (label_file 1 [3%N]) []
              0 ("images/mnist/d/p0.bmp -1 -1 -1 1 -1 -1 -1 -1 -1 -1" +:+ nl)
              ltac:(vm_compute; reflexivity))
    as (rest & name & im & H & _).
  exists rest. exact H.
Defined.

(** The scenario of the specification: two 28x28 items with labels 3 and
    7 give two bitmaps, numbered 0 and 1, and the two manifest lines with
    the [1] at positions 3 and 7. *)
Example two_items_labels_3_7 :
  let r := makeDataSet "i" "l" "d" "p" "c"
             (start (image_file 2 28 28 (replicate 1568 (byte_of 0)))
                    (label_file 2 [3%N; 7%N]) []) in
  snd r = inr tt
  /\ map fst (saved (fst r)) = ["d/p0.bmp"; "d/p1.bmp"]
  /\ config (fst r)
     = ["images/mnist/d/p0.bmp -1 -1 -1 1 -1 -1 -1 -1 -1 -1" +:+ nl;
        "images/mnist/d/p1.bmp -1 -1 -1 -1 -1 -1 -1 1 -1 -1" +:+ nl].
Proof. vm_compute. repeat split. Qed.

End mnist_facts.

(** ** gen/gen2.py: the rows of any run *)

Module gen2_rows.
Import gen2 gen2_facts.

Lemma filter_none {A} (P : A -> bool) (l : list A) :
  (forall x, In x l -> P x = false) -> List.filter P l = [].
Proof.
  induction l as [| x l IH]; intros H; [reflexivity |].
  simpl. rewrite (H x (or_introl eq_refl)). apply IH.
  intros y Hy. apply H. now right.
Qed.

Lemma filter_all {A} (P : A -> bool) (l : list A) :
  (forall x, In x l -> P x = true) -> List.filter P l = l.
Proof.
  induction l as [| x l IH]; intros H; [reflexivity |].
  simpl. rewrite (H x (or_introl eq_refl)). f_equal. apply IH.
  intros y Hy. apply H. now right.
Qed.

Lemma div_eq_iff (i d b : Z) :
  0 < d -> (i / d = b <-> b * d <= i < (b + 1) * d).
Proof.
  intros Hd. split.
  - intros <-. pose proof (Z.div_mod i d ltac:(lia)).
    pose proof (Z.mod_pos_bound i d Hd). nia.
  - intros H. symmetry. apply (Z.div_unique i d b (i - b * d)); lia.
Qed.

(** What has been printed when the run ends, normally or not. *)
Lemma stdout_cases (samples : Z) :
  stdout (fst (main (Some samples) init))
  = if samples / 10 =? 0 then [] else map (row_text samples) (range samples).
Proof.
  destruct (Z.eqb_spec (samples / 10) 0) as [Hd | Hd].
  - apply Z.div_small_iff in Hd; [| lia].
    assert (Hs : 0 <= samples < 10) by lia.
    destruct (Z.eq_dec samples 0) as [-> | Hne]; [reflexivity |].
    assert (Hz : samples / 10 = 0) by (apply Z.div_small; lia).
    unfold main, generate, range.
    replace samples with (Z.succ (samples - 1)) at 1 by lia.
    rewrite seqZ_cons by lia. simpl for_each.
    rewrite (bind_err _ _ _ _ _ (row_zero samples 0 init Hz)). reflexivity.
  - destruct (main_ok samples Hd) as [o Ho]. now rewrite Ho.
Qed.

Lemma printed_row (samples : Z) (n : nat) (line : string) :
  stdout (fst (main (Some samples) init)) !! n = Some line ->
  samples / 10 <> 0 /\ 0 <= Z.of_nat n < samples
  /\ line = row_text samples (Z.of_nat n).
Proof.
  rewrite stdout_cases. destruct (Z.eqb_spec (samples / 10) 0) as [Hd | Hd];
    [discriminate |].
  unfold range. change (map (row_text samples) (seqZ 0 samples))
    with (row_text samples <$> seqZ 0 samples).
  rewrite list_lookup_fmap. destruct (seqZ 0 samples !! n) as [i |] eqn:E;
    [| discriminate].
  apply lookup_seqZ in E as [-> E]. intros [= <-].
  split; [exact Hd |]. split; [lia | reflexivity].
Qed.

Lemma grid_tokens_row_text (samples i : Z) :
  grid_tokens (row_text samples i) = map cell_token (grid (i / (samples / 10))).
Proof. unfold grid_tokens. now rewrite tokens_row_text. Qed.

Lemma length_cells (ms : list bool) :
  String.length (cat (map cell_text ms)) = (3 * length ms)%nat.
Proof.
  induction ms as [| m ms IH]; [reflexivity |].
  change (cat (map cell_text (m :: ms))) with (cell_text m +:+ cat (map cell_text ms)).
  rewrite length_append, IH. destruct m; simpl; lia.
Qed.

Lemma count_1_grid (b : Z) :
  count_tok "1" (map cell_token (grid b)) = if (0 <=? b) && (b <=? 9) then 1%nat else 0%nat.
Proof.
  destruct ((0 <=? b) && (b <=? 9)) eqn:E.
  - apply andb_prop in E as [E1 E2]. apply Z.leb_le in E1, E2.
    now destruct (grid_inside b ltac:(lia)) as (H & _).
  - rewrite grid_outside; [reflexivity |].
    intros [H1 H2]. apply Z.leb_le in H1, H2. now rewrite H1, H2 in E.
Qed.

(** X1: Every line the generator prints, whatever [samples] is: the label
    [{ n }] of its row number, then 100 grid tokens, each [1] or [-1], at
    most one of them [1]; 305 characters besides the digits of [n]. *)
Theorem printed_line_shape (samples : Z) (n : nat) (line : string) :
  stdout (fst (main (Some samples) init)) !! n = Some line ->
  exists g,
    tokens line = "{" :: fmt_d (Z.of_nat n) :: "}" :: g
    /\ length g = 100%nat
    /\ Forall (fun t => t = "1" \/ t = "-1") g
    /\ (count_tok "1" g <= 1)%nat
    /\ String.length line = (String.length (fmt_d (Z.of_nat n)) + 305)%nat.
Proof.
  intros H. apply printed_row in H as (_ & _ & ->).
  exists (map cell_token (grid (Z.of_nat n / (samples / 10)))).
  split; [apply tokens_row_text |].
  split; [now rewrite length_map, length_grid |].
  split.
  - apply List.Forall_forall. intros t Ht. apply in_map_iff in Ht as ([] & <- & _); auto.
  - split.
    + rewrite count_1_grid. destruct (_ && _); lia.
    + unfold row_text. rewrite !length_append, length_cells, length_grid. simpl. lia.
Qed.

Lemma printed_line_shape_witness :
  exists g, tokens (row_text 12 11) = "{" :: "11" :: "}" :: g /\ length g = 100%nat.
Proof.
  destruct (printed_line_shape 12 11 (row_text 12 11) ltac:(vm_compute; reflexivity))
    as (g & H1 & H2 & _).
  exists g. split; assumption.
Defined.

Lemma lookup_diagonal (bk b : Z) :
  0 <= b <= 9 ->
  map cell_token (grid bk) !! Z.to_nat (11 * b) = Some (cell_token (b =? bk)).
Proof.
  intros Hb.
  assert (E : b = 0 \/ b = 1 \/ b = 2 \/ b = 3 \/ b = 4 \/ b = 5 \/ b = 6
              \/ b = 7 \/ b = 8 \/ b = 9) by lia.
  repeat (destruct E as [-> | E]); try subst b; reflexivity.
Qed.

(** X2: With [samples >= 10] the run is divided evenly among the ten classes:
    row [i] carries its [1] in diagonal cell [(b, b)] exactly when
    [b * (samples/10) <= i < (b + 1) * (samples/10)]. *)
Theorem class_rows (samples b i : Z) :
  10 <= samples -> 0 <= b <= 9 -> 0 <= i < samples ->
  exists v line,
    main (Some samples) init = (v, inr tt)
    /\ stdout v !! Z.to_nat i = Some line
    /\ (grid_tokens line !! Z.to_nat (11 * b) = Some "1"
        <-> b * (samples / 10) <= i < (b + 1) * (samples / 10)).
Proof.
  intros Hs Hb Hi.
  assert (Hd : 0 < samples / 10).
  { pose proof (Z.div_le_lower_bound samples 10 1 ltac:(lia) ltac:(lia)). lia. }
  destruct (main_ok samples ltac:(lia)) as [o Ho].
  eexists. exists (row_text samples i).
  split; [exact Ho |]. split; [now apply lookup_rows |].
  rewrite grid_tokens_row_text, lookup_diagonal by exact Hb.
  rewrite <- (div_eq_iff i (samples / 10) b Hd).
  destruct (Z.eqb_spec b (i / (samples / 10))) as [E | E]; simpl; split.
  - intros _. now symmetry.
  - reflexivity.
  - discriminate.
  - intros E'. now symmetry in E'.
Qed.

Lemma class_rows_witness :
  exists v line,
    main (Some 25) init = (v, inr tt)
    /\ stdout v !! 5%nat = Some line
    /\ grid_tokens line !! 22%nat = Some "1".
Proof.
  destruct (class_rows 25 2 5 ltac:(lia) ltac:(lia) ltac:(lia))
    as (v & line & H1 & H2 & H3).
  exists v, line. split; [exact H1 |]. split; [exact H2 |].
  apply H3. change (25 / 10) with 2. lia.
Defined.

Lemma unmarked_row_text (samples i : Z) :
  0 < samples / 10 -> 0 <= i ->
  unmarked (row_text samples i) = (10 * (samples / 10) <=? i).
Proof.
  intros Hd Hi. unfold unmarked. rewrite grid_tokens_row_text, count_1_grid.
  assert (H0 : 0 <= i / (samples / 10)) by (apply Z.div_pos; lia).
  replace (0 <=? i / (samples / 10)) with true by (symmetry; apply Z.leb_le; lia).
  cbn [andb].
  destruct (Z.leb_spec (10 * (samples / 10)) i) as [H | H].
  - replace (i / (samples / 10) <=? 9) with false; [reflexivity |].
    symmetry. apply Z.leb_gt.
    pose proof (Z.div_le_lower_bound i (samples / 10) 10 Hd ltac:(lia)). lia.
  - replace (i / (samples / 10) <=? 9) with true; [reflexivity |].
    symmetry. apply Z.leb_le.
    pose proof (Z.div_lt_upper_bound i (samples / 10) 10 Hd ltac:(lia)). lia.
Qed.

(** X3: With [samples >= 10] the rows left without a [1] are exactly the last
    [samples mod 10] rows, those from row [10 * (samples/10)] on. *)
Theorem unmarked_rows (samples : Z) :
  10 <= samples ->
  exists v,
    main (Some samples) init = (v, inr tt)
    /\ (forall (n : nat) (line : string), stdout v !! n = Some line ->
          (unmarked line = true <-> 10 * (samples / 10) <= Z.of_nat n))
    /\ length (List.filter unmarked (stdout v)) = Z.to_nat (samples mod 10).
Proof.
  intros Hs.
  assert (Hd : 0 < samples / 10).
  { pose proof (Z.div_le_lower_bound samples 10 1 ltac:(lia) ltac:(lia)). lia. }
  pose proof (Z.div_mod samples 10 ltac:(lia)) as Hdm.
  pose proof (Z.mod_pos_bound samples 10 ltac:(lia)) as Hm.
  destruct (main_ok samples ltac:(lia)) as [o Ho].
  eexists. split; [exact Ho |]. cbn [stdout]. split.
  - intros n line H.
    assert (H' : stdout (fst (main (Some samples) init)) !! n = Some line)
      by now rewrite Ho.
    apply printed_row in H' as (_ & Hn & ->).
    rewrite unmarked_row_text by lia. apply Z.leb_le.
  - unfold range.
    replace samples with (10 * (samples / 10) + samples mod 10) at 2 by lia.
    rewrite seqZ_app, map_app, List.filter_app, length_app by lia.
    rewrite filter_none, filter_all.
    + rewrite length_map, length_seqZ. simpl. lia.
    + intros x Hx. apply in_map_iff in Hx as (i & <- & Hi).
      apply list_elem_of_In, elem_of_seqZ in Hi.
      rewrite unmarked_row_text by lia. apply Z.leb_le. lia.
    + intros x Hx. apply in_map_iff in Hx as (i & <- & Hi).
      apply list_elem_of_In, elem_of_seqZ in Hi.
      rewrite unmarked_row_text by lia. apply Z.leb_gt. lia.
Qed.

Lemma unmarked_rows_witness :
  exists v, main (Some 12) init = (v, inr tt)
            /\ length (List.filter unmarked (stdout v)) = 2%nat.
Proof.
  destruct (unmarked_rows 12 ltac:(lia)) as (v & H1 & _ & H2).
  exists v. split; [exact H1 | exact H2].
Defined.

End gen2_rows.

(** ** makeTrainDataForNeural2d.py: what every run does *)

Module mnist_runs.
Import mnist mnist_facts.

Section Loop.
Variables (destDir prefix : string).

Local Arguments take : simpl never.
Local Arguments drop : simpl never.
Local Arguments fmt_d : simpl never.
Local Arguments Z.mul : simpl never.
Local Arguments Nat.mul : simpl never.
Local Arguments Nat.add : simpl never.
Local Arguments seq : simpl never.

(** The outside effects of one pass of the loop body, on any world: it
    creates no directory, opens no file and prints nothing; it saves at
    most one bitmap, under the current file name, and writes at most one
    line, and a line only after its bitmap. *)
Lemma record_effects (height width idx : Z) (w : world) :
  let r := record destDir prefix height width idx w in
  paths (fst r) = paths w /\ created (fst r) = created w
  /\ stdout (fst r) = stdout w
  /\ exists a c,
       saved (fst r) = saved w ++ a /\ config (fst r) = config w ++ c
       /\ (length c <= length a <= 1)%nat
       /\ (forall x, In x a -> fst x = bmp_name destDir prefix idx)
       /\ (snd r = inr tt -> length c = 1%nat).
Proof.
  cbv zeta. destruct (record destDir prefix height width idx w) as [w' r] eqn:R.
  cbn [fst snd]. unfold record in R. rewrite bind_read in R. cbv zeta in R.
  unfold frombytes in R.
  destruct (Z.of_nat (length _) =? width * height) in R.
  2:{ rewrite bind_raise_l in R. injection R as <- <-. cbn.
      split_and!; try reflexivity. exists [], [].
      split_and!; [now rewrite app_nil_r | now rewrite app_nil_r | cbn; lia | cbn; lia
                  | intros x [] | discriminate]. }
  rewrite bind_ret_l in R. unfold save in R. rewrite bind_modify in R.
  unfold bind in R. rewrite collect_targets_eq in R. cbn in R.
  destruct (data (lfile w) !! pos (lfile w)) as [b |] eqn:E; cbn in R.
  2:{ injection R as <- <-. cbn.
      split_and!; try reflexivity. eexists. exists [].
      split_and!; [reflexivity | now rewrite app_nil_r | cbn; lia | cbn; lia
                  | intros x [<- | []]; reflexivity | discriminate]. }
  destruct (byte_val b <? 10) eqn:Lt; cbn in R; injection R as <- <-; cbn.
  - split_and!; try reflexivity. eexists. eexists.
    split_and!; [reflexivity | reflexivity | cbn; lia | cbn; lia
                | intros x [<- | []]; reflexivity | reflexivity].
  - split_and!; try reflexivity. eexists. exists [].
    split_and!; [reflexivity | now rewrite app_nil_r | cbn; lia | cbn; lia
                | intros x [<- | []]; reflexivity | discriminate].
Qed.

(** The same for the whole loop over [n] records. *)
Lemma records_effects (height width : Z) (n : nat) (idx : Z) (w : world) :
  let r := records destDir prefix height width n idx w in
  paths (fst r) = paths w /\ created (fst r) = created w
  /\ stdout (fst r) = stdout w
  /\ exists a c,
       saved (fst r) = saved w ++ a /\ config (fst r) = config w ++ c
       /\ (length c <= length a <= length c + 1)%nat
       /\ (length a <= n)%nat
       /\ (forall (j : nat) x, a !! j = Some x ->
             fst x = bmp_name destDir prefix (idx + Z.of_nat j))
       /\ (snd r = inr tt -> length c = n /\ length a = n).
Proof.
  cbv zeta. revert idx w. induction n as [| n IH]; intros idx w.
  - cbn. split_and!; try reflexivity. exists [], [].
    split_and!; [now rewrite app_nil_r | now rewrite app_nil_r | cbn; lia | cbn; lia
                | cbn; lia | intros j x H; discriminate | auto].
  - cbn [records]. unfold bind.
    pose proof (record_effects height width idx w) as R. cbv zeta in R.
    destruct (record destDir prefix height width idx w) as [w1 [e | []]];
      cbn [fst snd] in *.
    + destruct R as (Rp & Rc & Ro & a & c & Ra & Rcf & [Rl1 Rl2] & Rn & _).
      split_and!; try assumption. exists a, c.
      split_and!; try assumption; try lia; try discriminate.
      intros j x H. assert (Hj : j = 0%nat).
      { apply lookup_lt_Some in H. lia. }
      subst j. rewrite Z.add_0_r. apply Rn. apply list_elem_of_In.
      eapply list_elem_of_lookup_2. exact H.
    + destruct R as (Rp & Rc & Ro & a & c & Ra & Rcf & [Rl1 Rl2] & Rn & Rok).
      specialize (Rok eq_refl).
      assert (La : length a = 1%nat) by lia.
      destruct (IH (idx + 1) w1)
        as (Ip & Ic & Io & a' & c' & Ia & Icf & [Il1 Il2] & In_ & Inm & Iok).
      split_and!; try congruence.
      exists (a ++ a'), (c ++ c').
      split_and!.
      * rewrite Ia, Ra, <- app_assoc; reflexivity.
      * rewrite Icf, Rcf, <- app_assoc; reflexivity.
      * rewrite !length_app. lia.
      * rewrite !length_app. lia.
      * rewrite !length_app. lia.
      * intros j x H. destruct a as [| x0 [| ? ?]]; try discriminate.
        destruct j as [| j]; cbn in H.
        { injection H as <-. rewrite Z.add_0_r. apply Rn. now left. }
        replace (idx + Z.of_nat (S j)) with (idx + 1 + Z.of_nat j) by lia.
        now apply Inm.
      * intros H. destruct (Iok H) as [Hc' Ha']. rewrite !length_app. lia.
Qed.

(** The loop is the loop over its first [a] records followed by the loop
    over the rest. *)
Lemma records_split (height width : Z) (a c : nat) (idx : Z) (w : world) :
  records destDir prefix height width (a + c) idx w
  = bind (records destDir prefix height width a idx)
      (fun _ => records destDir prefix height width c (idx + Z.of_nat a)) w.
Proof.
  revert idx w. induction a as [| a IH]; intros idx w.
  - cbn [records Nat.add]. change (0 + c)%nat with c.
    rewrite bind_ret_l. now rewrite Z.add_0_r.
  - change (S a + c)%nat with (S (a + c)). cbn [records]. unfold bind.
    destruct (record destDir prefix height width idx w) as [w' [e | []]];
      [reflexivity |].
    rewrite IH. unfold bind.
    destruct (records destDir prefix height width a (idx + 1) w') as [w'' [e | []]];
      [reflexivity |].
    f_equal. rewrite Nat2Z.inj_succ, <- Z.add_1_l, Z.add_assoc. reflexivity.
Qed.

(** After [m] good records the loop ends the way record [m] ends, when
    that is with an exception. *)
Lemma records_stop (base w' : world) (n m : nat) (e : exn) :
  (m < n)%nat ->
  (forall k, (k < m)%nat ->
     complete (data (ifile base)) k /\ label_in_range (data (lfile base)) k) ->
  record destDir prefix 28 28 (Z.of_nat m) (extracted base destDir prefix m m)
    = (w', inl e) ->
  records destDir prefix 28 28 n 0 (extracted base destDir prefix 0 0) = (w', inl e).
Proof.
  intros Hm Hgood Hrec.
  assert (E : n = (m + S (n - S m))%nat) by lia.
  rewrite E. rewrite records_split.
  rewrite (bind_ok _ _ _ _ _
             (records_good destDir prefix base m 0 (fun k Hk => Hgood k (proj2 Hk)))).
  cbn [records]. change (0 + Z.of_nat m) with (Z.of_nat m).
  apply bind_err. exact Hrec.
Qed.

(** A record whose pixel block is cut short: [ValueError] before anything
    is saved for it. *)
Lemma record_short (base : world) (j : nat) :
  ~ complete (data (ifile base)) j ->
  exists w',
    record destDir prefix 28 28 (Z.of_nat j) (extracted base destDir prefix j j)
      = (w', inl ValueError)
    /\ saved w' = saved (extracted base destDir prefix j j)
    /\ config w' = config (extracted base destDir prefix j j).
Proof.
  intros Hc. eexists. unfold record. rewrite bind_read. cbn.
  change (Z.to_nat (28 * 28)) with 784%nat.
  fold (pixels_of (data (ifile base)) j). unfold frombytes.
  assert (L : (length (pixels_of (data (ifile base)) j) < 784)%nat).
  { unfold complete in Hc. unfold pixels_of. rewrite length_take, length_drop. lia. }
  replace (Z.of_nat (length (pixels_of (data (ifile base)) j)) =? 28 * 28) with false.
  - rewrite bind_raise_l. cbn. split; [reflexivity |]. split; reflexivity.
  - symmetry. apply Z.eqb_neq. change (28 * 28) with 784. lia.
Qed.

(** A complete record without a label byte: the bitmap is saved, then
    [ord] raises [TypeError] and no line is written. *)
Lemma record_no_label (base : world) (j : nat) :
  complete (data (ifile base)) j ->
  label_of (data (lfile base)) j = None ->
  exists w',
    record destDir prefix 28 28 (Z.of_nat j) (extracted base destDir prefix j j)
      = (w', inl TypeError)
    /\ saved w' = saved (extracted base destDir prefix (S j) j)
    /\ config w' = config (extracted base destDir prefix j j).
Proof.
  intros Hc Hl. eexists.
  unfold record. rewrite bind_read. cbn.
  change (Z.to_nat (28 * 28)) with 784%nat.
  fold (pixels_of (data (ifile base)) j).
  unfold frombytes. rewrite (length_pixels _ _ Hc).
  change (Z.of_nat 784 =? 28 * 28) with true. cbn.
  unfold bind at 1. rewrite collect_targets_eq. cbn.
  unfold label_of in Hl. rewrite Hl. cbn.
  split; [reflexivity |]. split; [| reflexivity].
  apply (seq_snoc_map (fun k => (bmp_name destDir prefix (Z.of_nat k),
                                 bitmap_of (data (ifile base)) k))).
Qed.
End Loop.

Lemma be32_at_short (bytes : list byte) (offset : nat) :
  (length bytes < offset + 4)%nat -> be32_at bytes offset = None.
Proof.
  intros H. unfold be32_at.
  assert (L : (length (take 4 (drop offset bytes)) < 4)%nat)
    by (rewrite length_take, length_drop; lia).
  destruct (take 4 (drop offset bytes)) as [| ? [| ? [| ? [| ? [| ? ?]]]]];
    try reflexivity.
  cbn in L. lia.
Qed.

Lemma be32_at_long (bytes : list byte) (offset : nat) (v : Z) :
  be32_at bytes offset = Some v -> (offset + 4 <= length bytes)%nat.
Proof.
  intros H. apply be32_at_length in H.
  rewrite length_take, length_drop in H. lia.
Qed.

Section Shape.
Variables (imageFile labelFile destDir prefix configFile : string).
Variables (idata ldata : list byte) (existing : list string).

Local Abbreviation run :=
  (makeDataSet imageFile labelFile destDir prefix configFile
     (start idata ldata existing)).

(** A run either stops while the headers are read, with [TypeError] or
    [exit(1)], or enters the loop with both counts equal and 28x28
    images. *)
Lemma run_shape :
  (exists ipos lpos out e,
     (e = TypeError \/ e = SystemExit 1)
     /\ take 2 out = header_lines imageFile labelFile destDir []
     /\ run = (opened idata ldata existing destDir configFile ipos lpos out, inl e))
  \/ (exists n,
        be32_at ldata 4 = Some n /\ be32_at idata 4 = Some n
        /\ be32_at idata 8 = Some 28 /\ be32_at idata 12 = Some 28
        /\ run = records destDir prefix 28 28 (Z.to_nat n) 0
                   (loop_start imageFile labelFile destDir configFile
                      idata ldata existing n)).
Proof.
  rewrite makeDataSet_eq. unfold header_phase. cbv zeta.
  destruct (be32_at ldata 4) as [numLabels |];
    [| left; do 4 eexists; split_and!; [left; reflexivity | | reflexivity]; reflexivity].
  destruct (be32_at idata 4) as [numImages |];
    [| left; do 4 eexists; split_and!; [left; reflexivity | | reflexivity]; reflexivity].
  destruct (Z.eqb_spec numImages numLabels) as [-> | Hne]; cbn [negb];
    [| left; do 4 eexists; split_and!; [right; reflexivity | | reflexivity]; reflexivity].
  destruct (be32_at idata 8) as [height |];
    [| left; do 4 eexists; split_and!; [left; reflexivity | | reflexivity]; reflexivity].
  destruct (be32_at idata 12) as [width |];
    [| left; do 4 eexists; split_and!; [left; reflexivity | | reflexivity]; reflexivity].
  destruct (Z.eqb_spec height 28) as [-> | Hh]; cbn [negb orb];
    [| left; do 4 eexists; split_and!; [right; reflexivity | | reflexivity]; reflexivity].
  destruct (Z.eqb_spec width 28) as [-> | Hw]; cbn [negb orb];
    [| left; do 4 eexists; split_and!; [right; reflexivity | | reflexivity]; reflexivity].
  right. exists numLabels. split_and!; reflexivity.
Qed.
End Shape.

(** What the loop leaves alone and how it names what it saves, stated
    for whole runs. *)
Lemma run_outputs
    (imageFile labelFile destDir prefix configFile : string)
    (idata ldata : list byte) (existing : list string) :
  let r := makeDataSet imageFile labelFile destDir prefix configFile
             (start idata ldata existing) in
  created (fst r) = [configFile]
  /\ forall (j : nat) name im, saved (fst r) !! j = Some (name, im) ->
       name = bmp_name destDir prefix (Z.of_nat j).
Proof.
  cbv zeta.
  destruct (run_shape imageFile labelFile destDir prefix configFile idata ldata existing)
    as [(ipos & lpos & out & e & _ & _ & ->) | (n & _ & _ & _ & _ & ->)].
  - split; [reflexivity | intros j name im H; discriminate].
  - match goal with
    | |- context [records ?d ?p ?h ?w ?k ?i ?w0] =>
        destruct (records_effects d p h w k i w0)
          as (_ & Hc & _ & a & c & Ha & _ & _ & _ & Hname & _)
    end.
    change (saved _ ++ a) with a in Ha. rewrite Hc, Ha.
    split; [reflexivity |].
    intros j name im H. apply Hname in H. cbn in H. now rewrite Z.add_0_l in H.
Qed.

(** X4: Whatever the input files hold, when the run ends [open] has been
    called in write mode once, on the manifest path (the bitmaps are
    written by [im.save], which [saved] records apart), the destination
    directory exists, created only if it was missing, and the first two
    lines printed are the opening messages. *)
Theorem run_always_opens
    (imageFile labelFile destDir prefix configFile : string)
    (idata ldata : list byte) (existing : list string) :
  let r := makeDataSet imageFile labelFile destDir prefix configFile
             (start idata ldata existing) in
  created (fst r) = [configFile]
  /\ paths (fst r) = (if existsb (String.eqb destDir) existing then existing
                      else existing ++ [destDir])
  /\ take 2 (stdout (fst r))
     = ["Extracting images and labels from " +:+ imageFile +:+ " and " +:+ labelFile;
        "into directory " +:+ destDir].
Proof.
  cbv zeta.
  destruct (run_shape imageFile labelFile destDir prefix configFile idata ldata existing)
    as [(ipos & lpos & out & e & _ & Ho & ->) | (n & _ & _ & _ & _ & ->)].
  - cbn [fst opened created paths stdout]. split_and!; [reflexivity | reflexivity | exact Ho].
  - match goal with
    | |- context [records ?d ?p ?h ?w ?k ?i ?w0] =>
        destruct (records_effects d p h w k i w0) as (Hp & Hc & Ho & _)
    end.
    rewrite Hp, Hc, Ho. split_and!; reflexivity.
Qed.

(** X5: A header too short to hold its fields (a label file under 8 bytes or
    an image file under 16) never leads to output: the run ends with
    exit status 1, no bitmap saved and no manifest line written; with a
    short label file it is [TypeError], raised before the image file is
    read at all. *)
Theorem short_header_aborts
    (imageFile labelFile destDir prefix configFile : string)
    (idata ldata : list byte) (existing : list string) :
  (length ldata < 8)%nat \/ (length idata < 16)%nat ->
  let r := makeDataSet imageFile labelFile destDir prefix configFile
             (start idata ldata existing) in
  exit_status (snd r) = 1
  /\ saved (fst r) = [] /\ config (fst r) = []
  /\ ((length ldata < 8)%nat ->
      snd r = inl TypeError /\ pos (ifile (fst r)) = 0%nat).
Proof.
  intros H. cbv zeta.
  assert (G : (length ldata < 8)%nat ->
              snd (makeDataSet imageFile labelFile destDir prefix configFile
                     (start idata ldata existing)) = inl TypeError
              /\ pos (ifile (fst (makeDataSet imageFile labelFile destDir prefix
                                    configFile (start idata ldata existing)))) = 0%nat).
  { intros Hl. rewrite makeDataSet_eq. unfold header_phase. cbv zeta.
    rewrite (be32_at_short ldata 4) by lia. split; reflexivity. }
  destruct (run_shape imageFile labelFile destDir prefix configFile idata ldata existing)
    as [(ipos & lpos & out & e & He & Ho & R) | (n & E1 & _ & _ & E4 & _)].
  - rewrite R in *. cbn [fst snd opened saved config] in *.
    split_and!; try reflexivity; [destruct He as [-> | ->]; reflexivity | exact G].
  - exfalso. destruct H as [H | H].
    + rewrite (be32_at_short ldata 4) in E1 by lia. discriminate.
    + rewrite (be32_at_short idata 12) in E4 by lia. discriminate.
Qed.

Lemma short_header_aborts_witness :
  let r := makeDataSet "i" "l" "d" "p" "c" (start (image_file 1 28 28 []) [] []) in
  snd r = inl TypeError /\ saved (fst r) = [].
Proof.
  destruct (short_header_aborts "i" "l" "d" "p" "c" (image_file 1 28 28 []) [] []
              ltac:(left; cbn; lia))
    as (_ & H2 & _ & H4).
  cbv zeta. split; [apply H4; cbn; lia | exact H2].
Defined.

(** X6: A pixel block cut short: when the [k] records before record [k]
    each have their 784 pixel bytes and a label byte that is present
    and at most 9, and fewer than 784 bytes are left for record [k],
    the run ends in [ValueError] with exit status 1, having saved the
    bitmaps and written the lines of the [k] records before it and
    nothing for record [k]. *)
Theorem short_pixels_abort
    (imageFile labelFile destDir prefix configFile : string)
    (idata ldata : list byte) (existing : list string) (N : Z) (k : nat) :
  be32_at ldata 4 = Some N -> be32_at idata 4 = Some N ->
  be32_at idata 8 = Some 28 -> be32_at idata 12 = Some 28 ->
  (k < Z.to_nat N)%nat ->
  (forall j, (j < k)%nat -> complete idata j /\ label_in_range ldata j) ->
  ~ complete idata k ->
  let r := makeDataSet imageFile labelFile destDir prefix configFile
             (start idata ldata existing) in
  snd r = inl ValueError /\ exit_status (snd r) = 1
  /\ saved (fst r)
     = map (fun j => (bmp_name destDir prefix (Z.of_nat j), bitmap_of idata j)) (seq 0 k)
  /\ config (fst r) = map (line_of destDir prefix ldata) (seq 0 k).
Proof.
  intros E1 E2 E3 E4 Hk Hgood Hc. cbv zeta.
  rewrite (run_loop imageFile labelFile destDir prefix configFile idata ldata existing
             N E1 E2 E3 E4).
  destruct (record_short destDir prefix
              (loop_start imageFile labelFile destDir configFile idata ldata existing N)
              k Hc) as (w' & Hrec & Hs & Hcf).
  rewrite (records_stop destDir prefix
             (loop_start imageFile labelFile destDir configFile idata ldata existing N)
             w' (Z.to_nat N) k ValueError Hk Hgood Hrec).
  cbn [fst snd]. rewrite Hs, Hcf. split_and!; reflexivity.
Qed.

Lemma short_pixels_abort_witness :
  let r := makeDataSet "i" "l" "d" "p" "c"
             (start (image_file 2 28 28 (replicate 884 (byte_of 0)))
                    (label_file 2 [3%N; 7%N]) []) in
  snd r = inl ValueError
  /\ map fst (saved (fst r)) = ["d/p0.bmp"]
  /\ config (fst r) = ["images/mnist/d/p0.bmp -1 -1 -1 1 -1 -1 -1 -1 -1 -1" +:+ nl].
Proof.
  destruct (short_pixels_abort "i" "l" "d" "p" "c"
              (image_file 2 28 28 (replicate 884 (byte_of 0)))
              (label_file 2 [3%N; 7%N]) [] 2 1
              eq_refl eq_refl eq_refl eq_refl ltac:(cbn; lia)
              ltac:(intros j Hj; assert (j = 0%nat) as -> by lia;
                    split; [unfold complete; cbn; lia
                           | exists (byte_of 3); split;
                             [reflexivity | vm_compute; discriminate]])
              ltac:(unfold complete; cbn; lia))
    as (H1 & _ & H2 & H3).
  cbv zeta. split_and!; [exact H1 | now rewrite H2 | now rewrite H3].
Defined.

(** X7: A label file that ends early: when the [k] records before record
    [k] each have their 784 pixel bytes and a label byte that is present
    and at most 9, and record [k] has its pixel bytes but no label
    byte, the run ends in [TypeError] with exit status 1; the bitmap of
    record [k] has been saved, its line has not been written. *)
Theorem missing_label_aborts
    (imageFile labelFile destDir prefix configFile : string)
    (idata ldata : list byte) (existing : list string) (N : Z) (k : nat) :
  be32_at ldata 4 = Some N -> be32_at idata 4 = Some N ->
  be32_at idata 8 = Some 28 -> be32_at idata 12 = Some 28 ->
  (k < Z.to_nat N)%nat ->
  (forall j, (j < k)%nat -> complete idata j /\ label_in_range ldata j) ->
  complete idata k -> label_of ldata k = None ->
  let r := makeDataSet imageFile labelFile destDir prefix configFile
             (start idata ldata existing) in
  snd r = inl TypeError /\ exit_status (snd r) = 1
  /\ saved (fst r)
     = map (fun j => (bmp_name destDir prefix (Z.of_nat j), bitmap_of idata j))
         (seq 0 (S k))
  /\ config (fst r) = map (line_of destDir prefix ldata) (seq 0 k).
Proof.
  intros E1 E2 E3 E4 Hk Hgood Hc Hl. cbv zeta.
  rewrite (run_loop imageFile labelFile destDir prefix configFile idata ldata existing
             N E1 E2 E3 E4).
  destruct (record_no_label destDir prefix
              (loop_start imageFile labelFile destDir configFile idata ldata existing N)
              k Hc Hl) as (w' & Hrec & Hs & Hcf).
  rewrite (records_stop destDir prefix
             (loop_start imageFile labelFile destDir configFile idata ldata existing N)
             w' (Z.to_nat N) k TypeError Hk Hgood Hrec).
  cbn [fst snd]. rewrite Hs, Hcf. split_and!; reflexivity.
Qed.

Lemma missing_label_aborts_witness :
  let r := makeDataSet "i" "l" "d" "p" "c"
             (start (image_file 2 28 28 (replicate 1568 (byte_of 0)))
                    (label_file 2 [3%N]) []) in
  snd r = inl TypeError
  /\ map fst (saved (fst r)) = ["d/p0.bmp"; "d/p1.bmp"]
  /\ config (fst r) = ["images/mnist/d/p0.bmp -1 -1 -1 1 -1 -1 -1 -1 -1 -1" +:+ nl].
Proof.
  destruct (missing_label_aborts "i" "l" "d" "p" "c"
              (image_file 2 28 28 (replicate 1568 (byte_of 0)))
              (label_file 2 [3%N]) [] 2 1
              eq_refl eq_refl eq_refl eq_refl ltac:(cbn; lia)
              ltac:(intros j Hj; assert (j = 0%nat) as -> by lia;
                    split; [unfold complete; cbn; lia
                           | exists (byte_of 3); split;
                             [reflexivity | vm_compute; discriminate]])
              ltac:(unfold complete; cbn; lia) eq_refl)
    as (H1 & _ & H2 & H3).
  cbv zeta. split_and!; [exact H1 | now rewrite H2 | now rewrite H3].
Defined.


Lemma plain_append (a b : string) : plain (a +:+ b) = plain a && plain b.
Proof.
  induction a as [| c a IH]; [reflexivity |].
  rewrite append_cons. simpl. rewrite IH. apply andb_assoc.
Qed.

Lemma plain_bmp_name (destDir prefix : string) (k : Z) :
  plain destDir = true -> plain prefix = true ->
  plain ("images/mnist/" +:+ bmp_name destDir prefix k) = true.
Proof.
  intros Hd Hp. unfold bmp_name.
  now rewrite !plain_append, Hd, Hp, plain_fmt_d.
Qed.

(** The tokens of a manifest line whose file name has no blank: the path
    field, then the ten values. *)
Lemma config_line_tokens (name : string) (L : nat) :
  plain ("images/mnist/" +:+ name) = true -> (L < 10)%nat ->
  tokens (config_line name (one_hot L))
  = ("images/mnist/" +:+ name) :: map fmt_d (one_hot L).
Proof.
  intros Hp HL. unfold tokens, config_line.
  rewrite <- (append_assoc "images/mnist/" name).
  rewrite tokens_from_plain by exact Hp.
  do 10 (destruct L as [| L]; [reflexivity |]). lia.
Qed.

Lemma one_hot_counts (L : nat) :
  (L < 10)%nat ->
  count_tok "1" (map fmt_d (one_hot L)) = 1%nat
  /\ count_tok "-1" (map fmt_d (one_hot L)) = 9%nat
  /\ map fmt_d (one_hot L) !! L = Some "1".
Proof.
  intros HL. do 10 (destruct L as [| L]; [vm_compute; auto |]). lia.
Qed.

(** X9: When [destDir] and [prefix] contain no whitespace, every manifest
    line written splits into exactly eleven tokens: the path field of its
    record, then ten values of which the one at the record's label is [1]
    and the other nine are [-1]. *)
Theorem manifest_line_tokens
    (imageFile labelFile destDir prefix configFile : string)
    (idata ldata : list byte) (existing : list string)
    (j : nat) (line : string) :
  plain destDir = true -> plain prefix = true ->
  config (fst (makeDataSet imageFile labelFile destDir prefix configFile
                 (start idata ldata existing))) !! j = Some line ->
  exists vals,
    tokens line = path_field destDir prefix (Z.of_nat j) :: vals
    /\ length vals = 10%nat
    /\ count_tok "1" vals = 1%nat /\ count_tok "-1" vals = 9%nat
    /\ vals !! label_at ldata j = Some "1".
Proof.
  intros Hd Hp Hline.
  destruct (run_general imageFile labelFile destDir prefix configFile
              idata ldata existing) as [G _].
  destruct (G j line Hline) as (b & im & Hl & Hb & _ & ->).
  assert (HL : (label_at ldata j < 10)%nat).
  { unfold label_at. rewrite Hl. pose proof (byte_val_range b). lia. }
  exists (map fmt_d (one_hot (label_at ldata j))).
  unfold line_of.
  rewrite config_line_tokens by (try apply plain_bmp_name; assumption).
  destruct (one_hot_counts _ HL) as (H1 & H2 & H3).
  destruct (one_hot_spec _ HL) as (H4 & _).
  split_and!; [reflexivity | now rewrite length_map | assumption..].
Qed.

Lemma manifest_line_tokens_witness :
  exists vals,
    tokens ("images/mnist/d/p0.bmp -1 -1 -1 1 -1 -1 -1 -1 -1 -1" +:+ nl)
    = "images/mnist/d/p0.bmp" :: vals
    /\ length vals = 10%nat.
Proof.
  destruct (manifest_line_tokens "i" "l" "d" "p" "c"
              (image_file 1 28 28 (replicate 784 (byte_of 0))) (label_file 1 [3%N]) []
              0 ("images/mnist/d/p0.bmp -1 -1 -1 1 -1 -1 -1 -1 -1 -1" +:+ nl)
              eq_refl eq_refl ltac:(vm_compute; reflexivity))
    as (vals & H1 & H2 & _).
  exists vals. split; assumption.
Defined.

(** X10: Pixel fidelity: in a run over well-formed files, the bitmap saved for
    record [k] is a 28x28 RGB image of 784 pixels, and pixel [q] has all
    three channels equal to the byte at offset [16 + 784 * k + q] of the
    image file. *)
Theorem saved_pixels
    (imageFile labelFile destDir prefix configFile : string)
    (idata ldata : list byte) (existing : list string) (N : Z) (k : nat) :
  be32_at ldata 4 = Some N -> be32_at idata 4 = Some N ->
  be32_at idata 8 = Some 28 -> be32_at idata 12 = Some 28 ->
  (forall j, (j < Z.to_nat N)%nat -> complete idata j /\ label_in_range ldata j) ->
  (k < Z.to_nat N)%nat ->
  let r := makeDataSet imageFile labelFile destDir prefix configFile
             (start idata ldata existing) in
  exists px,
    saved (fst r) !! k = Some (bmp_name destDir prefix (Z.of_nat k), ImageRGB 28 28 px)
    /\ length px = 784%nat
    /\ forall q, (q < 784)%nat ->
         exists v, idata !! (16 + 784 * k + q)%nat = Some v /\ px !! q = Some (v, v, v).
Proof.
  intros E1 E2 E3 E4 H Hk. cbv zeta.
  rewrite (run_well_formed imageFile labelFile destDir prefix configFile
             idata ldata existing N E1 E2 E3 E4 H).
  destruct (H k Hk) as [Hc _].
  exists (map (fun p => (p, p, p)) (pixels_of idata k)).
  cbn [fst extracted saved loop_start opened ifile data app].
  split_and!.
  - change (map ?f (seq 0 (Z.to_nat N))) with (f <$> seq 0 (Z.to_nat N)).
    rewrite list_lookup_fmap, lookup_seq_lt by exact Hk. reflexivity.
  - now rewrite length_map, length_pixels.
  - intros q Hq. unfold complete in Hc.
    destruct (lookup_lt_is_Some_2 idata (16 + 784 * k + q) ltac:(lia)) as [v Hv].
    exists v. split; [exact Hv |].
    change (map ?f (pixels_of idata k)) with (f <$> pixels_of idata k).
    rewrite list_lookup_fmap. unfold pixels_of.
    rewrite lookup_take, lookup_drop. destruct (decide (q < 784)%nat); [| lia].
    now rewrite Hv.
Qed.

Lemma saved_pixels_witness :
  exists px,
    saved (fst (makeDataSet "i" "l" "d" "p" "c"
                  (start (image_file 1 28 28 (replicate 784 (byte_of 7)))
                         (label_file 1 [3%N]) []))) !! 0%nat
    = Some ("d/p0.bmp", ImageRGB 28 28 px)
    /\ length px = 784%nat.
Proof.
  destruct (saved_pixels "i" "l" "d" "p" "c"
              (image_file 1 28 28 (replicate 784 (byte_of 7))) (label_file 1 [3%N]) [] 1 0
              eq_refl eq_refl eq_refl eq_refl
              ltac:(intros j Hj; assert (j = 0%nat) as -> by (cbn in Hj; lia);
                    split; [unfold complete; cbn; lia
                           | exists (byte_of 3); split; [reflexivity | vm_compute; discriminate]])
              ltac:(cbn; lia))
    as (px & H1 & H2 & _).
  exists px. split; assumption.
Defined.

Lemma be32_at_app (bytes extra : list byte) (offset : nat) (v : Z) :
  be32_at bytes offset = Some v -> be32_at (bytes ++ extra) offset = Some v.
Proof.
  intros H. pose proof (be32_at_long _ _ _ H) as L. unfold be32_at in *.
  rewrite drop_app_le by lia. rewrite take_app_le; [exact H |].
  rewrite length_drop. lia.
Qed.

Lemma pixels_of_app (idata extra : list byte) (k : nat) :
  complete idata k -> pixels_of (idata ++ extra) k = pixels_of idata k.
Proof.
  unfold complete, pixels_of. intros H.
  rewrite drop_app_le by lia. apply take_app_le. rewrite length_drop. lia.
Qed.

Lemma label_of_app (ldata extra : list byte) (k : nat) (b : byte) :
  label_of ldata k = Some b -> label_of (ldata ++ extra) k = Some b.
Proof. unfold label_of. intros H. now apply lookup_app_l_Some. Qed.

(** X11: Bytes after the declared records are ignored: appending anything to
    well-formed image and label files changes neither the outcome, nor
    the bitmaps saved, nor the manifest. *)
Theorem trailing_bytes_ignored
    (imageFile labelFile destDir prefix configFile : string)
    (idata ldata extra1 extra2 : list byte) (existing : list string) (N : Z) :
  be32_at ldata 4 = Some N -> be32_at idata 4 = Some N ->
  be32_at idata 8 = Some 28 -> be32_at idata 12 = Some 28 ->
  (forall k, (k < Z.to_nat N)%nat -> complete idata k /\ label_in_range ldata k) ->
  let r := makeDataSet imageFile labelFile destDir prefix configFile
             (start idata ldata existing) in
  let r' := makeDataSet imageFile labelFile destDir prefix configFile
              (start (idata ++ extra1) (ldata ++ extra2) existing) in
  snd r' = snd r /\ saved (fst r') = saved (fst r) /\ config (fst r') = config (fst r).
Proof.
  intros E1 E2 E3 E4 H. cbv zeta.
  assert (H' : forall k, (k < Z.to_nat N)%nat ->
                 complete (idata ++ extra1) k /\ label_in_range (ldata ++ extra2) k).
  { intros k Hk. destruct (H k Hk) as (Hc & b & Hl & Hb). split.
    - unfold complete in *. rewrite length_app. lia.
    - exists b. split; [now apply label_of_app | exact Hb]. }
  rewrite (run_well_formed imageFile labelFile destDir prefix configFile
             idata ldata existing N E1 E2 E3 E4 H).
  rewrite (run_well_formed imageFile labelFile destDir prefix configFile
             (idata ++ extra1) (ldata ++ extra2) existing N
             (be32_at_app _ _ _ _ E1) (be32_at_app _ _ _ _ E2)
             (be32_at_app _ _ _ _ E3) (be32_at_app _ _ _ _ E4) H').
  cbn [fst snd extracted saved config loop_start opened ifile lfile data app].
  split_and!; [reflexivity | |].
  - apply map_ext_in. intros k Hk. apply in_seq in Hk.
    destruct (H k ltac:(lia)) as [Hc _].
    unfold bitmap_of. now rewrite pixels_of_app.
  - apply map_ext_in. intros k Hk. apply in_seq in Hk.
    destruct (H k ltac:(lia)) as (_ & b & Hl & _).
    unfold line_of, label_at. now rewrite (label_of_app _ _ _ _ Hl), Hl.
Qed.

Lemma trailing_bytes_ignored_witness :
  config (fst (makeDataSet "i" "l" "d" "p" "c"
                 (start (image_file 1 28 28 (replicate 784 (byte_of 0)) ++ [byte_of 9])
                        (label_file 1 [3%N] ++ [byte_of 200]) [])))
  = config (fst (makeDataSet "i" "l" "d" "p" "c"
                   (start (image_file 1 28 28 (replicate 784 (byte_of 0)))
                          (label_file 1 [3%N]) []))).
Proof.
  destruct (trailing_bytes_ignored "i" "l" "d" "p" "c"
              (image_file 1 28 28 (replicate 784 (byte_of 0))) (label_file 1 [3%N])
              [byte_of 9] [byte_of 200] [] 1
              eq_refl eq_refl eq_refl eq_refl
              ltac:(intros j Hj; assert (j = 0%nat) as -> by (cbn in Hj; lia);
                    split; [unfold complete; cbn; lia
                           | exists (byte_of 3); split; [reflexivity | vm_compute; discriminate]]))
    as (_ & _ & H).
  exact H.
Defined.

Lemma byte_val_inj (a b : byte) : byte_val a = byte_val b -> a = b.
Proof.
  unfold byte_val. intros H. apply N2Z.inj in H.
  pose proof (Byte.of_to_N a) as Ha. rewrite H, Byte.of_to_N in Ha. now injection Ha.
Qed.

Lemma be32_inj (bs bs' : list byte) (v : Z) :
  be32 bs = Some v -> be32 bs' = Some v -> bs = bs'.
Proof.
  destruct bs as [| a0 [| a1 [| a2 [| a3 [| ? ?]]]]]; try discriminate.
  destruct bs' as [| b0 [| b1 [| b2 [| b3 [| ? ?]]]]]; try discriminate.
  cbn [be32 fold_left]. intros [= <-] [= H].
  pose proof (byte_val_range a0). pose proof (byte_val_range a1).
  pose proof (byte_val_range a2). pose proof (byte_val_range a3).
  pose proof (byte_val_range b0). pose proof (byte_val_range b1).
  pose proof (byte_val_range b2). pose proof (byte_val_range b3).
  assert (byte_val a0 = byte_val b0) by lia.
  assert (byte_val a1 = byte_val b1) by lia.
  assert (byte_val a2 = byte_val b2) by lia.
  assert (byte_val a3 = byte_val b3) by lia.
  f_equal; [| f_equal; [| f_equal; [| f_equal]]]; now apply byte_val_inj.
Qed.

(** X12: The shift-and-add of lines 63-66 loses nothing: two reads of a header
    field that give the same number have read the same four bytes. *)
Theorem header_field_injective (h : handle) (w1 w2 : world) (v : Z) :
  snd (shift_accumulate h w1) = inr v ->
  snd (shift_accumulate h w2) = inr v ->
  take 4 (drop (pos (file_of h w1)) (data (file_of h w1)))
  = take 4 (drop (pos (file_of h w2)) (data (file_of h w2))).
Proof.
  rewrite !shift_accumulate_eq. cbv zeta. cbn [snd].
  destruct (be32 (take 4 (drop (pos (file_of h w1)) (data (file_of h w1)))))
    as [v1 |] eqn:E1; [| discriminate].
  destruct (be32 (take 4 (drop (pos (file_of h w2)) (data (file_of h w2)))))
    as [v2 |] eqn:E2; [| discriminate].
  intros [= ->] [= ->]. exact (be32_inj _ _ _ E1 E2).
Qed.

Lemma header_field_injective_witness :
  take 4 (drop 4 (label_file 2 [])) = take 4 (drop 4 (image_file 2 28 28 [])).
Proof.
  exact (header_field_injective Lfile
           {| ifile := {| data := []; pos := 0 |};
              lfile := {| data := label_file 2 []; pos := 4 |};
              paths := []; created := []; saved := []; config := []; stdout := [] |}
           {| ifile := {| data := []; pos := 0 |};
              lfile := {| data := image_file 2 28 28 []; pos := 4 |};
              paths := []; created := []; saved := []; config := []; stdout := [] |}
           2 eq_refl eq_refl).
Defined.

(** No line printed by [makeDataSet] can be taken for the completion
    notice: its last line starts with [i], [#] or [W], or is the download
    hint. *)
Lemma last_line_printed
    (imageFile labelFile destDir prefix configFile : string)
    (idata ldata : list byte) (existing : list string) :
  exists l,
    last (stdout (fst (makeDataSet imageFile labelFile destDir prefix configFile
                         (start idata ldata existing)))) = Some l
    /\ (String.get 0 l = Some "i"%char \/ String.get 0 l = Some "#"%char
        \/ String.get 0 l = Some "W"%char
        \/ l = "Download the necessary files from " +:+ MNIST_URL).
Proof.
  rewrite makeDataSet_eq. unfold header_phase. cbv zeta.
  destruct (be32_at ldata 4) as [numLabels |];
    [| eexists; split; [reflexivity | left; reflexivity]].
  destruct (be32_at idata 4) as [numImages |];
    [| eexists; split; [reflexivity | right; left; reflexivity]].
  destruct (negb (numImages =? numLabels));
    [eexists; split; [reflexivity | do 3 right; reflexivity] |].
  destruct (be32_at idata 8) as [height |];
    [| eexists; split; [reflexivity | right; left; reflexivity]].
  destruct (be32_at idata 12) as [width |];
    [| eexists; split; [reflexivity | right; left; reflexivity]].
  destruct (negb (height =? 28) || negb (width =? 28));
    [eexists; split; [reflexivity | do 3 right; reflexivity] |].
  match goal with
  | |- context [records ?d ?p ?h ?w ?k ?i ?w0] =>
      destruct (records_effects d p h w k i w0) as (_ & _ & Ho & _)
  end.
  rewrite Ho. eexists; split; [reflexivity | right; right; left; reflexivity].
Qed.

(** X13: The entry point: [main] ends the way [makeDataSet] on the training
    files ends and leaves its bitmaps and manifest as they are; the
    manifest is [inputData-mnist.txt] and bitmap [j] is
    [train-data/{j}.bmp]; the completion notice is the last line printed
    exactly when the run ended normally. *)
Theorem main_completion_notice (idata ldata : list byte) (existing : list string) :
  let m := makeDataSet TRAIN_IMAGES TRAIN_LABELS DEST_DIR_TRAIN "" "inputData-mnist.txt"
             (start idata ldata existing) in
  let r := main (start idata ldata existing) in
  snd r = snd m /\ saved (fst r) = saved (fst m) /\ config (fst r) = config (fst m)
  /\ created (fst r) = ["inputData-mnist.txt"]
  /\ (forall (j : nat) name im, saved (fst r) !! j = Some (name, im) ->
        name = "train-data/" +:+ fmt_d (Z.of_nat j) +:+ ".bmp")
  /\ (last (stdout (fst r))
        = Some "Done. You can now run neural2d using topology.txt and inputData-train.txt or inputData-mnist.txt."
      <-> snd r = inr tt).
Proof.
  cbv zeta.
  pose proof (run_outputs TRAIN_IMAGES TRAIN_LABELS DEST_DIR_TRAIN ""
                "inputData-mnist.txt" idata ldata existing) as (Hcr & Hn).
  destruct (last_line_printed TRAIN_IMAGES TRAIN_LABELS DEST_DIR_TRAIN ""
              "inputData-mnist.txt" idata ldata existing) as (l & Hl & Hfirst).
  cbv zeta in Hcr, Hn. unfold main, bind.
  destruct (makeDataSet TRAIN_IMAGES TRAIN_LABELS DEST_DIR_TRAIN "" "inputData-mnist.txt"
              (start idata ldata existing)) as [w [e | []]]; cbn [fst snd] in *.
  - split_and!; try reflexivity; [exact Hcr | exact Hn |].
    split; [| discriminate].
    rewrite Hl. intros [= ->]. exfalso.
    destruct Hfirst as [H | [H | [H | H]]]; discriminate.
  - split_and!; try reflexivity; [exact Hcr | exact Hn |].
    split; [reflexivity |]. intros _. unfold print, modify. cbn [fst stdout].
    apply last_snoc.
Qed.

End mnist_runs.
